(** * Application.py: the interview bot's script, run by run

    The Streamlit script [main] is executed from the top on every user
    interaction.  What survives between two runs is [st.session_state] and
    the files the script wrote: the recorded answers under [audios/] and
    [interview_results.csv].  One run is modelled as a function of the widget
    values of that run and of the replies of the external services, threading
    the surviving state through a small monad with early exits ([return],
    [st.rerun()], an uncaught exception).  Whether a recording can be opened
    for writing is the machine's answer, which the state carries along. *)

From Stdlib Require Import String Ascii List Arith Lia Bool DecimalString DecimalNat.
From Stdlib Require Import Init.Byte.
From stdpp Require Import base option list gmap strings.
Import ListNotations.
Local Open Scope string_scope.
Local Open Scope list_scope.

(** ** Python strings

    A [str] is a sequence of code points; the development covers the code
    points below 256, one [ascii] each. *)
Module PyStr.

(** [str.isspace] on one code point. *)
Definition isspace (c : ascii) : bool :=
  let n := nat_of_ascii c in
  (((9 <=? n) && (n <=? 13)) || ((28 <=? n) && (n <=? 31))
   || (n =? 32) || (n =? 133) || (n =? 160))%nat.

(** The line boundaries of [str.splitlines]. *)
Definition is_linebreak (c : ascii) : bool :=
  let n := nat_of_ascii c in
  (((10 <=? n) && (n <=? 13)) || ((28 <=? n) && (n <=? 30)) || (n =? 133))%nat.

Fixpoint lstrip_chars (l : list ascii) : list ascii :=
  match l with
  | [] => []
  | c :: l' => if isspace c then lstrip_chars l' else l
  end.

Definition rstrip_chars (l : list ascii) : list ascii :=
  rev (lstrip_chars (rev l)).

Definition strip_chars (l : list ascii) : list ascii :=
  rstrip_chars (lstrip_chars l).

(** [s.strip()] *)
Definition strip (s : string) : string :=
  string_of_list_ascii (strip_chars (list_ascii_of_string s)).

(** [s.splitlines()]: [cur] holds the current line, reversed.  A carriage
    return followed by a line feed is one boundary, and a final boundary
    opens no further line. *)
Fixpoint splitlines_chars (cur l : list ascii) : list (list ascii) :=
  match l with
  | [] => match cur with [] => [] | _ => [rev cur] end
  | c :: l' =>
      if is_linebreak c then
        rev cur ::
          match l' with
          | c' :: l'' =>
              if ((nat_of_ascii c =? 13) && (nat_of_ascii c' =? 10))%nat
              then splitlines_chars [] l''
              else splitlines_chars [] l'
          | [] => splitlines_chars [] l'
          end
      else splitlines_chars (c :: cur) l'
  end.

Definition splitlines (s : string) : list string :=
  map string_of_list_ascii (splitlines_chars [] (list_ascii_of_string s)).

(** [s.replace(old, new)] for one-character [old] and [new]. *)
Definition replace (old new : ascii) (s : string) : string :=
  string_of_list_ascii
    (map (fun c => if Ascii.eqb c old then new else c) (list_ascii_of_string s)).

(** [str(n)] for a non-negative [int]. *)
Definition of_nat (n : nat) : string :=
  NilEmpty.string_of_uint (Nat.to_uint n).

(** Truth value of a [str]: non-empty. *)
Definition truthy (s : string) : bool :=
  match s with EmptyString => false | String _ _ => true end.

(** [sep.join(l)] *)
Fixpoint join (sep : string) (l : list string) : string :=
  match l with
  | [] => ""
  | [x] => x
  | x :: l' => x +:+ sep +:+ join sep l'
  end.

(** [s.startswith(c)] for a one-character prefix. *)
Definition startswith (c : ascii) (s : string) : bool :=
  match s with String c' _ => Ascii.eqb c' c | EmptyString => false end.

End PyStr.

(** ** Python dictionaries with [str] keys

    A [dict] keeps its entries in insertion order and holds each key once;
    assigning to a key that is present replaces the value where it stands. *)
Module PyDict.
Section Dict.
Context {V : Type}.

Definition dict : Type := list (string * V).

Fixpoint get (k : string) (d : dict) : option V :=
  match d with
  | [] => None
  | (k', v) :: d' => if String.eqb k k' then Some v else get k d'
  end.

(** [k in d] *)
Definition mem (k : string) (d : dict) : bool :=
  match get k d with Some _ => true | None => false end.

(** [d[k] = v] *)
Fixpoint set (k : string) (v : V) (d : dict) : dict :=
  match d with
  | [] => [(k, v)]
  | (k', v') :: d' =>
      if String.eqb k k' then (k', v) :: d' else (k', v') :: set k v d'
  end.

Definition keys (d : dict) : list string := map fst d.

(** [d.items()] *)
Definition items (d : dict) : list (string * V) := d.

(** Number of entries stored under [k]. *)
Definition count (k : string) (d : dict) : nat :=
  length (List.filter (fun kv => String.eqb k (fst kv)) d).
End Dict.
Arguments dict V : clear implicits.
End PyDict.

Abbreviation dict := PyDict.dict.

(** ** Session state, files and external services *)

(** One entry of [st.session_state.responses]. *)
Record response : Type := Response { audio : string; text : string }.

(** The keys of [st.session_state], with the types the script gives them. *)
Record session_state : Type := SessionState {
  questions : list string;
  current_question : nat;
  responses : dict response;
  interview_complete : bool;
  greeting_done : bool;
  greeting_text : string;
  candidate_name : string;
  role : string;
  description : string
}.

(** The defaults of the initialisation loop at the top of [main]. *)
Definition default_state : session_state :=
  {| questions := []; current_question := 0; responses := [];
     interview_complete := false; greeting_done := false; greeting_text := "";
     candidate_name := ""; role := ""; description := "" |}.

(** The loop stores a default for each key that is missing.  The keys are only
    ever created by this loop, all in one run: a browser session has either
    none of them ([None]) or all of them. *)
Definition session_init (stored : option session_state) : session_state :=
  match stored with
  | None => default_state
  | Some s => s
  end.

Inductive exn : Type :=
| IndexError
| FileNotFoundError
| OSError (strerror : string)
| ServiceError (msg : string).

(** What the script leaves behind, and the machine it runs on: the session
    state, the binary files written by [save_audio], and
    [interview_results.csv] as its list of records, [None] while the file does
    not exist.  [open_wb] is the machine's answer to [save_audio]: what
    [open(path, "wb")] does once [os.makedirs("audios", exist_ok=True)] has
    run, [None] when the file is opened for writing and the exception
    otherwise, as for a path whose directory does not exist.  The results
    file is taken to be writable. *)
Record world : Type := World {
  session : session_state;
  files : gmap string (list byte);
  open_wb : string -> option exn;
  results_file : option (list (list string))
}.

(** What a call to an external service does. *)
Inductive reply : Type :=
| Returns (out : string)
| Raises (e : exn).

(** The Groq services as they answer during one run, by the arguments of
    the call: the Whisper transcription of a file's content, and the three
    LangChain chains.  The prompt templates, and the rubric that
    [evaluation_chain] always falls back to, are constants of the chains. *)
Record services : Type := Services {
  transcriptions_create : list byte -> reply;
  run_greeting : string -> reply;
  run_question : string -> string -> reply;
  run_evaluation : string -> string -> reply
}.

(** The values the widgets hand to the script in one run.  A text field
    that the user did not touch returns the value it is given as default. *)
Record widgets : Type := Widgets {
  enter_your_name : string;
  submit_name : bool;
  job_title : option string;
  job_description : option string;
  start_interview : bool;
  audio_recorder : option (list byte);
  previous_question : bool;
  next_question : bool;
  finish_interview : bool
}.

(** ** The script monad *)

(** How a run ends before the last line of [main]. *)
Inductive control : Type :=
| Return
| RerunException
| Uncaught (e : exn).

Inductive step (A : Type) : Type :=
| Next (a : A)
| Stop (c : control).
Arguments Next {A} a.
Arguments Stop {A} c.

Definition script (A : Type) : Type := world -> step A * world.

#[global] Instance script_ret : MRet script := fun A a w => (Next a, w).

#[global] Instance script_bind : MBind script := fun A B f m w =>
  match m w with
  | (Next a, w') => f a w'
  | (Stop c, w') => (Stop c, w')
  end.

Definition get_state : script session_state := fun w => (Next (session w), w).

Definition put_state (s : session_state) : script unit := fun w =>
  (Next tt,
   {| session := s; files := files w; open_wb := open_wb w;
      results_file := results_file w |}).

Definition stop {A : Type} (c : control) : script A := fun w => (Stop c, w).

(** [st.rerun()] *)
Definition st_rerun {A : Type} : script A := stop RerunException.

Definition raise {A : Type} (e : exn) : script A := stop (Uncaught e).

(** A call to an external service: its text, or its exception. *)
Definition call (r : reply) : script string :=
  match r with
  | Returns out => mret out
  | Raises e => raise e
  end.

Definition when (b : bool) (body : script unit) : script unit :=
  if b then body else mret tt.

(** ** Helpers of the source *)

(** [os.path.join(a, b)] on POSIX for a non-empty [a] without a trailing
    slash: an absolute [b] discards [a]. *)
Definition os_path_join (a b : string) : string :=
  if PyStr.startswith "/" b then b else a +:+ "/" +:+ b.

(** The characters of a reversed path from its last slash on. *)
Fixpoint drop_to_slash (l : list ascii) : list ascii :=
  match l with
  | [] => []
  | c :: l' => if Ascii.eqb c "/" then l else drop_to_slash l'
  end.

Fixpoint drop_slashes (l : list ascii) : list ascii :=
  match l with
  | [] => []
  | c :: l' => if Ascii.eqb c "/" then drop_slashes l' else l
  end.

(** [os.path.dirname(p)] on POSIX: what stands before the last slash,
    without the slashes at its end unless it is slashes only. *)
Definition os_path_dirname (p : string) : string :=
  let head := drop_to_slash (rev (list_ascii_of_string p)) in
  match drop_slashes head with
  | [] => string_of_list_ascii (rev head)
  | stripped => string_of_list_ascii (rev stripped)
  end.

(** A machine on which a file can be opened for writing when its directory
    is [audios] or one of [ds], and on which [open] raises
    [FileNotFoundError] otherwise. *)
Definition posix_open (ds : list string) (path : string) : option exn :=
  if existsb (String.eqb (os_path_dirname path)) ("audios" :: ds) then None
  else Some FileNotFoundError.

(** [os.makedirs("audios", exist_ok=True)] and [open(path, "wb")] are the
    machine's; an exception of theirs ends the run before anything is
    written. *)
Definition save_audio (audio_bytes : list byte) (filename : string) : script string :=
  fun w =>
    let path := os_path_join "audios" filename in
    match open_wb w path with
    | Some e => (Stop (Uncaught e), w)
    | None =>
        (Next path,
         {| session := session w;
            files := <[path := audio_bytes]> (files w);
            open_wb := open_wb w;
            results_file := results_file w |})
    end.

(** The file that [open(audio_path, "rb")] reads is the one [save_audio]
    has just written. *)
Definition transcribe_audio_file (svc : services) (audio_path : string) : script string :=
  fun w =>
    match files w !! audio_path with
    | Some content =>
        (transcription ← call (transcriptions_create svc content);
         mret (PyStr.strip transcription)) w
    | None => raise FileNotFoundError w
    end.

Definition USE_MOCK : bool := false.

Definition mock_questions : list string :=
  map (fun i => "Mock Question " +:+ PyStr.of_nat i) (seq 1 5).

Definition mock_eval : string :=
  "Final Score: 7/10" +:+ String "010" "Overall Feedback: Good performance."
  +:+ String "010" "Recommendation: Consider".

Definition greeting_chain (svc : services) (name : string) : script string :=
  call (run_greeting svc name).

Definition question_chain (svc : services) (role description : string) : script string :=
  call (run_question svc role description).

Definition evaluation_chain (svc : services) (role qa_text : string) : script string :=
  call (run_evaluation svc role qa_text).

Definition csv_header : list string :=
  ["Candidate Name"; "Role"; "Question"; "Audio File"; "Transcribed Answer";
   "Evaluation Summary"].

Definition csv_row (candidate_name role eval_result : string)
    (item : string * response) : list string :=
  [candidate_name; role; fst item; audio (snd item); text (snd item); eval_result].

(** The file is opened in append mode; the header goes in only when
    [os.path.isfile] found no file. *)
Definition save_results_csv (candidate_name role : string)
    (responses : dict response) (eval_result : string) : script unit :=
  fun w =>
    let rows := map (csv_row candidate_name role eval_result) (PyDict.items responses) in
    let content :=
      match results_file w with
      | None => csv_header :: rows
      | Some old => old ++ rows
      end in
    (Next tt,
     {| session := session w; files := files w; open_wb := open_wb w;
        results_file := Some content |}).

(** ** Assignments to the keys of [st.session_state] *)

Definition set_questions (v : list string) (s : session_state) : session_state :=
  {| questions := v; current_question := current_question s;
     responses := responses s; interview_complete := interview_complete s;
     greeting_done := greeting_done s; greeting_text := greeting_text s;
     candidate_name := candidate_name s; role := role s;
     description := description s |}.

Definition set_current_question (v : nat) (s : session_state) : session_state :=
  {| questions := questions s; current_question := v;
     responses := responses s; interview_complete := interview_complete s;
     greeting_done := greeting_done s; greeting_text := greeting_text s;
     candidate_name := candidate_name s; role := role s;
     description := description s |}.

Definition set_responses (v : dict response) (s : session_state) : session_state :=
  {| questions := questions s; current_question := current_question s;
     responses := v; interview_complete := interview_complete s;
     greeting_done := greeting_done s; greeting_text := greeting_text s;
     candidate_name := candidate_name s; role := role s;
     description := description s |}.

Definition set_interview_complete (v : bool) (s : session_state) : session_state :=
  {| questions := questions s; current_question := current_question s;
     responses := responses s; interview_complete := v;
     greeting_done := greeting_done s; greeting_text := greeting_text s;
     candidate_name := candidate_name s; role := role s;
     description := description s |}.

Definition set_greeting_done (v : bool) (s : session_state) : session_state :=
  {| questions := questions s; current_question := current_question s;
     responses := responses s; interview_complete := interview_complete s;
     greeting_done := v; greeting_text := greeting_text s;
     candidate_name := candidate_name s; role := role s;
     description := description s |}.

Definition set_greeting_text (v : string) (s : session_state) : session_state :=
  {| questions := questions s; current_question := current_question s;
     responses := responses s; interview_complete := interview_complete s;
     greeting_done := greeting_done s; greeting_text := v;
     candidate_name := candidate_name s; role := role s;
     description := description s |}.

Definition set_candidate_name (v : string) (s : session_state) : session_state :=
  {| questions := questions s; current_question := current_question s;
     responses := responses s; interview_complete := interview_complete s;
     greeting_done := greeting_done s; greeting_text := greeting_text s;
     candidate_name := v; role := role s;
     description := description s |}.

Definition set_role (v : string) (s : session_state) : session_state :=
  {| questions := questions s; current_question := current_question s;
     responses := responses s; interview_complete := interview_complete s;
     greeting_done := greeting_done s; greeting_text := greeting_text s;
     candidate_name := candidate_name s; role := v;
     description := description s |}.

Definition set_description (v : string) (s : session_state) : session_state :=
  {| questions := questions s; current_question := current_question s;
     responses := responses s; interview_complete := interview_complete s;
     greeting_done := greeting_done s; greeting_text := greeting_text s;
     candidate_name := candidate_name s; role := role s;
     description := v |}.

Definition modify_state (f : session_state -> session_state) : script unit :=
  s ← get_state; put_state (f s).

(** ** The script *)

(** [[q.strip() for q in text.splitlines() if q.strip()]] *)
Definition question_lines (out : string) : list string :=
  map PyStr.strip
    (List.filter (fun q => PyStr.truthy (PyStr.strip q)) (PyStr.splitlines out)).

(** [f"{safe_name}_Q{idx+1}.wav"] *)
Definition audio_filename (candidate_name : string) (idx : nat) : string :=
  let safe_name := PyStr.replace " " "_" candidate_name in
  safe_name +:+ "_Q" +:+ PyStr.of_nat (idx + 1) +:+ ".wav".

(** [f"Q{i+1}: {q}\nA: {data['text']}"] over [enumerate(responses.items())] *)
Definition qa_pairs (responses : dict response) : list string :=
  imap (fun i item =>
          "Q" +:+ PyStr.of_nat (i + 1) +:+ ": " +:+ fst item
          +:+ String "010" ("A: " +:+ text (snd item)))
       (PyDict.items responses).

Definition name_section (ui : widgets) : script unit :=
  s ← get_state;
  when (negb (PyStr.truthy (candidate_name s)))
    (let name := enter_your_name ui in
     when (submit_name ui && PyStr.truthy (PyStr.strip name))
       (modify_state (set_candidate_name (PyStr.strip name));;
        st_rerun);;
     stop Return).

Definition greeting_section (svc : services) : script unit :=
  s ← get_state;
  when (negb (greeting_done s))
    (greeting ← (if USE_MOCK then mret "Hello mock candidate!"
                 else greeting_chain svc (candidate_name s));
     modify_state (set_greeting_text greeting);;
     modify_state (set_greeting_done true);;
     st_rerun).

Definition role_section (ui : widgets) (svc : services) : script unit :=
  modify_state (fun s => set_role (default (role s) (job_title ui)) s);;
  modify_state (fun s => set_description (default (description s) (job_description ui)) s);;
  when (start_interview ui)
    (s ← get_state;
     if PyStr.truthy (PyStr.strip (role s))
        && PyStr.truthy (PyStr.strip (description s))
     then
       qs ← (if USE_MOCK then mret mock_questions
             else out ← question_chain svc (role s) (description s);
                  mret (question_lines out));
       modify_state (set_questions qs);;
       modify_state (set_current_question 0);;
       modify_state (set_responses []);;
       modify_state (set_interview_complete false);;
       st_rerun
     else mret tt).

(** The navigation buttons below a question that has a response. *)
Definition navigation (ui : widgets) (idx : nat) : script unit :=
  s ← get_state;
  when ((0 <? idx)%nat && previous_question ui)
    (modify_state (fun s => set_current_question (current_question s - 1) s);;
     st_rerun);;
  if (idx <? length (questions s) - 1)%nat && next_question ui then
    modify_state (fun s => set_current_question (current_question s + 1) s);;
    st_rerun
  else if (idx =? length (questions s) - 1)%nat && finish_interview ui then
    modify_state (set_interview_complete true);;
    st_rerun
  else mret tt.

Definition interview_section (ui : widgets) (svc : services) : script unit :=
  s ← get_state;
  when (match questions s with [] => false | _ => true end
        && negb (interview_complete s))
    (let idx := current_question s in
     q_text ← match questions s !! idx with
              | Some q => mret q
              | None => raise IndexError
              end;
     when (match audio_recorder ui with
           | Some (_ :: _) => true
           | _ => false
           end)
       (let audio_bytes := default [] (audio_recorder ui) in
        let filename := audio_filename (candidate_name s) idx in
        audio_path ← save_audio audio_bytes filename;
        transcription ← (if USE_MOCK then mret "Mock transcription"
                         else transcribe_audio_file svc audio_path);
        modify_state (fun s =>
          set_responses
            (PyDict.set q_text {| audio := audio_path; text := transcription |}
                        (responses s)) s));;
     s ← get_state;
     when (PyDict.mem q_text (responses s)) (navigation ui idx)).

Definition evaluation_section (svc : services) : script unit :=
  s ← get_state;
  when (interview_complete s)
    (let combined_text :=
       PyStr.join (String "010" (String "010" "")) (qa_pairs (responses s)) in
     eval_result ← (if USE_MOCK then mret mock_eval
                    else evaluation_chain svc (role s) combined_text);
     save_results_csv (candidate_name s) (role s) (responses s) eval_result).

Definition main (ui : widgets) (svc : services) : script unit :=
  name_section ui;;
  greeting_section svc;;
  role_section ui svc;;
  interview_section ui svc;;
  evaluation_section svc.

(** The state one run leaves behind, however the run ended. *)
Definition run (ui : widgets) (svc : services) (w : world) : world :=
  snd (main ui svc w).

(** A user's visit: one run per interaction. *)
Definition interact (trace : list (widgets * services)) (w : world) : world :=
  fold_left (fun w i => run (fst i) (snd i) w) trace w.

(** ** Phases, triggers and observations *)

(** Where a run of [main] goes, read off the guards of the script: the name
    form, the greeting, the role form alone, a question, or the evaluation.
    The evaluation text is computed in the run and not stored, so there is
    no stored difference between a completed and an evaluated interview. *)
Inductive phase : Type :=
| AwaitingName
| AwaitingGreeting
| AwaitingRole
| Interviewing
| Completed.

Definition phase_of (s : session_state) : phase :=
  if negb (PyStr.truthy (candidate_name s)) then AwaitingName
  else if negb (greeting_done s) then AwaitingGreeting
  else if interview_complete s then Completed
  else match questions s with
       | [] => AwaitingRole
       | _ :: _ => Interviewing
       end.

(** A run in which the user touched nothing. *)
Definition idle : widgets :=
  {| enter_your_name := ""; submit_name := false;
     job_title := None; job_description := None; start_interview := false;
     audio_recorder := None;
     previous_question := false; next_question := false;
     finish_interview := false |}.

(** "Start Interview" pressed with the two role fields filled in. *)
Definition click_start (title desc : string) : widgets :=
  {| enter_your_name := ""; submit_name := false;
     job_title := Some title; job_description := Some desc;
     start_interview := true;
     audio_recorder := None;
     previous_question := false; next_question := false;
     finish_interview := false |}.

(** The recorder hands over a recording. *)
Definition record_answer (audio_bytes : list byte) : widgets :=
  {| enter_your_name := ""; submit_name := false;
     job_title := None; job_description := None; start_interview := false;
     audio_recorder := Some audio_bytes;
     previous_question := false; next_question := false;
     finish_interview := false |}.

Definition click_previous : widgets :=
  {| enter_your_name := ""; submit_name := false;
     job_title := None; job_description := None; start_interview := false;
     audio_recorder := None;
     previous_question := true; next_question := false;
     finish_interview := false |}.

Definition click_next : widgets :=
  {| enter_your_name := ""; submit_name := false;
     job_title := None; job_description := None; start_interview := false;
     audio_recorder := None;
     previous_question := false; next_question := true;
     finish_interview := false |}.

Definition click_finish : widgets :=
  {| enter_your_name := ""; submit_name := false;
     job_title := None; job_description := None; start_interview := false;
     audio_recorder := None;
     previous_question := false; next_question := false;
     finish_interview := true |}.

(** The path [save_audio] writes for question [idx] of a candidate. *)
Definition audio_path_of (candidate_name : string) (idx : nat) : string :=
  os_path_join "audios" (audio_filename candidate_name idx).

(** What opening the recording of question [idx] for writing does: [None]
    when [save_audio] gets to write it. *)
Definition write_error (w : world) (idx : nat) : option exn :=
  open_wb w (audio_path_of (candidate_name (session w)) idx).

(** The response stored for the question at position [idx], looked up the
    way the script does: by the text of that question. *)
Definition answer_at (s : session_state) (idx : nat) : option response :=
  q ← questions s !! idx; PyDict.get q (responses s).

(** What the script keeps true of [st.session_state]: the keys of
    [responses] are distinct and are texts of current questions, and the
    cursor points at a question once there are questions. *)
Definition session_ok (s : session_state) : Prop :=
  NoDup (PyDict.keys (responses s))
  /\ (forall k, In k (PyDict.keys (responses s)) -> In k (questions s))
  /\ (questions s = [] \/ current_question s < length (questions s)).

(** The part of [main] above the evaluation. *)
Definition before_evaluation (ui : widgets) (svc : services) : script unit :=
  name_section ui;;
  greeting_section svc;;
  role_section ui svc;;
  interview_section ui svc.

(** The session a run hands to [save_results_csv], with the evaluation text,
    when the run gets that far. *)
Definition saved_by (ui : widgets) (svc : services) (w : world)
  : option (session_state * string) :=
  match before_evaluation ui svc w with
  | (Next _, w') =>
      let s := session w' in
      if interview_complete s then
        match run_evaluation svc (role s)
                (PyStr.join (String "010" (String "010" "")) (qa_pairs (responses s))) with
        | Returns eval_result => Some (s, eval_result)
        | Raises _ => None
        end
      else None
  | (Stop _, _) => None
  end.

(** The saves of a visit, in order. *)
Fixpoint saves (trace : list (widgets * services)) (w : world)
  : list (session_state * string) :=
  match trace with
  | [] => []
  | i :: trace' =>
      match saved_by (fst i) (snd i) w with
      | Some sv => [sv]
      | None => []
      end ++ saves trace' (run (fst i) (snd i) w)
  end.

(** The records one save appends after the header. *)
Definition rows_of (sv : session_state * string) : list (list string) :=
  map (csv_row (candidate_name (fst sv)) (role (fst sv)) (snd sv))
      (PyDict.items (responses (fst sv))).

(** The number of questions, counted by position, for which the session
    finds a response. *)
Definition answered_questions (s : session_state) : nat :=
  length (List.filter (fun q => PyDict.mem q (responses s)) (questions s)).

(** The runs of a visit that press "Finish Interview" with effect, each with
    the number of answered questions of the interview it completes. *)
Fixpoint completions (trace : list (widgets * services)) (w : world) : list nat :=
  match trace with
  | [] => []
  | i :: trace' =>
      let w' := run (fst i) (snd i) w in
      (if negb (interview_complete (session w)) && interview_complete (session w')
       then [answered_questions (session w')] else [])
      ++ completions trace' w'
  end.

(** Number of records in [interview_results.csv], the header included. *)
Definition sink_rows (w : world) : nat :=
  match results_file w with
  | None => 0
  | Some rows => length rows
  end.

(** A browser session that has not run the script yet, on a machine without
    recordings and without a results file, where [/tmp] is a directory and
    nothing has made a directory under [audios]. *)
Definition fresh_world : world :=
  {| session := session_init None; files := ∅; open_wb := posix_open ["/"; "/tmp"];
     results_file := None |}.

(** A question that still carries its number: it opens with a digit. *)
Definition numbered (q : string) : bool :=
  match q with
  | String c _ => (48 <=? nat_of_ascii c)%nat && (nat_of_ascii c <=? 57)%nat
  | EmptyString => false
  end.

(** The fields of the session that hold interview data, as opposed to the
    two flags [greeting_done] and [interview_complete]. *)
Definition same_data (s1 s2 : session_state) : Prop :=
  candidate_name s1 = candidate_name s2
  /\ greeting_text s1 = greeting_text s2
  /\ role s1 = role s2
  /\ description s1 = description s2
  /\ questions s1 = questions s2
  /\ responses s1 = responses s2.

(** The world with another session state. *)
Definition with_session (s : session_state) (w : world) : world :=
  {| session := s; files := files w; open_wb := open_wb w;
     results_file := results_file w |}.

(** The two assignments from the role form. *)
Definition edit_role (ui : widgets) (s : session_state) : session_state :=
  set_description (default (description (set_role (default (role s) (job_title ui)) s))
                           (job_description ui))
                  (set_role (default (role s) (job_title ui)) s).

(** The four assignments of a started interview. *)
Definition restart (qs : list string) (s : session_state) : session_state :=
  set_interview_complete false
    (set_responses [] (set_current_question 0 (set_questions qs s))).

(** [interview_results.csv] after the saves [svs], from the content [rf]. *)
Fixpoint append_saves (rf : option (list (list string)))
    (svs : list (session_state * string)) : option (list (list string)) :=
  match svs with
  | [] => rf
  | sv :: svs' =>
      append_saves
        (Some match rf with
              | None => csv_header :: rows_of sv
              | Some old => old ++ rows_of sv
              end) svs'
  end.

(** ** A visit, for the examples *)

Definition enter_name (name : string) : widgets :=
  {| enter_your_name := name; submit_name := true;
     job_title := None; job_description := None; start_interview := false;
     audio_recorder := None;
     previous_question := false; next_question := false;
     finish_interview := false |}.

Definition edit_title (title : string) : widgets :=
  {| enter_your_name := ""; submit_name := false;
     job_title := Some title; job_description := None; start_interview := false;
     audio_recorder := None;
     previous_question := false; next_question := false;
     finish_interview := false |}.

(** Services that answer every call, with two numbered questions. *)
Definition groq_up : services :=
  {| transcriptions_create := fun _ => Returns " I would add an index. ";
     run_greeting := fun _ => Returns "Hello, I am Santosh.";
     run_question := fun _ _ =>
       Returns ("1. What is REST?" +:+ String "010" (String "010"
                ("2. What is an index?" +:+ String "010" "")));
     run_evaluation := fun _ _ => Returns "Final Score: 8/10" |}.

(** Services that fail every call. *)
Definition groq_down : services :=
  {| transcriptions_create := fun _ => Raises (ServiceError "503");
     run_greeting := fun _ => Raises (ServiceError "503");
     run_question := fun _ _ => Raises (ServiceError "503");
     run_evaluation := fun _ _ => Raises (ServiceError "503") |}.

(** Services whose question chain repeats itself. *)
Definition groq_repeating : services :=
  {| transcriptions_create := fun _ => Returns "It depends.";
     run_greeting := fun _ => Returns "Hello, I am Santosh.";
     run_question := fun _ _ =>
       Returns ("Why this role?" +:+ String "010" ("Why this role?" +:+ String "010" ""));
     run_evaluation := fun _ _ => Returns "Final Score: 5/10" |}.

(** A candidate gives a name and a role and reaches the first question.  A
    run that ends in [st.rerun()] is followed by a run without interaction. *)
Definition visit_starts (name : string) (svc : services) : list (widgets * services) :=
  [ (enter_name name, svc); (idle, svc); (idle, svc);
    (click_start "Backend Engineer" "REST APIs, Postgres", svc); (idle, svc) ].

Definition ava_starts : list (widgets * services) := visit_starts " Ava " groq_up.

(** She answers both questions. *)
Definition ava_answers : list (widgets * services) :=
  ava_starts
  ++ [ (record_answer [x52; x49], groq_up); (click_next, groq_up); (idle, groq_up);
       (record_answer [x46; x46], groq_up) ].

(** She presses "Finish Interview" and sees the evaluation. *)
Definition ava_finishes : list (widgets * services) :=
  ava_answers ++ [ (click_finish, groq_up); (idle, groq_up) ].

(** With the evaluation on the page she corrects the job title. *)
Definition ava_edits_title : list (widgets * services) :=
  ava_finishes ++ [ (edit_title "Senior Backend Engineer", groq_up) ].

(** Bo is asked the same question twice, answers at both positions,
    finishes and sees the evaluation. *)
Definition bo_finishes : list (widgets * services) :=
  visit_starts "Bo" groq_repeating
  ++ [ (record_answer [x52], groq_repeating); (click_next, groq_repeating);
       (idle, groq_repeating); (record_answer [x49], groq_repeating);
       (click_finish, groq_repeating); (idle, groq_repeating) ].

(** The worlds these visits lead to. *)
Definition at_first_question : world := interact ava_starts fresh_world.
Definition all_answered : world := interact ava_answers fresh_world.

(** A candidate whose question chain repeated itself, at the first question. *)
Definition at_repeated_question : world :=
  interact (visit_starts "Bo" groq_repeating) fresh_world.

(** A candidate who typed a path as a name, at the first question. *)
Definition absolute_name_visit : world :=
  interact (visit_starts "/tmp/ava" groq_up) fresh_world.

(** A candidate who typed a slash inside the name, at the first question:
    the recordings would go to [audios/a], which nothing makes. *)
Definition slash_name_visit : world :=
  interact (visit_starts "a/b" groq_up) fresh_world.

(** A property of the session that a piece of the script keeps, however the
    piece ends. *)
Definition preserves {A : Type} (P : session_state -> Prop) (m : script A) : Prop :=
  forall w, P (session w) -> P (session (snd (m w))).

(** A piece of the script that leaves [interview_results.csv] alone. *)
Definition keeps_results {A : Type} (m : script A) : Prop :=
  forall w, results_file (snd (m w)) = results_file w.

(** ** Observations for the further properties *)


(** The truth value of what the recorder hands over. *)
Definition recorded (ui : widgets) : bool :=
  match audio_recorder ui with
  | Some (_ :: _) => true
  | _ => false
  end.

(** "Start Interview" is pressed and the role form, as this run leaves it,
    passes the guard. *)
Definition start_accepted (ui : widgets) (s : session_state) : bool :=
  start_interview ui
  && PyStr.truthy (PyStr.strip (role (edit_role ui s)))
  && PyStr.truthy (PyStr.strip (description (edit_role ui s))).

(** The widgets of a run with "Start Interview" left alone. *)
Definition without_start (ui : widgets) : widgets :=
  {| enter_your_name := enter_your_name ui; submit_name := submit_name ui;
     job_title := job_title ui; job_description := job_description ui;
     start_interview := false;
     audio_recorder := audio_recorder ui;
     previous_question := previous_question ui;
     next_question := next_question ui;
     finish_interview := finish_interview ui |}.





(** The candidate records [audio_bytes] for the question under the cursor
    and for each of the [n] questions after it, pressing "Next Question" in
    between and "Finish Interview" at the end. *)
Fixpoint answer_in_turn (n : nat) (audio_bytes : list byte) (svc : services)
  : list (widgets * services) :=
  match n with
  | 0 => [ (record_answer audio_bytes, svc); (click_finish, svc) ]
  | S n' =>
      (record_answer audio_bytes, svc) :: (click_next, svc)
      :: answer_in_turn n' audio_bytes svc
  end.

(** ** Further worlds, for the examples *)

(** Ava has given her name and is not greeted yet. *)
Definition named_only : world :=
  interact [ (enter_name " Ava ", groq_up) ] fresh_world.

(** Ava has finished and seen her evaluation. *)
Definition evaluated : world := interact ava_finishes fresh_world.

(** A machine on which [interview_results.csv] exists and is empty. *)
Definition with_empty_results : world :=
  {| session := session_init None; files := ∅; open_wb := posix_open ["/"; "/tmp"];
     results_file := Some [] |}.


(** * Facts *)

(** ** Strings *)
Module PyStrFacts.
Import PyStr.

Lemma lstrip_chars_suffix l : exists sp, l = sp ++ lstrip_chars l.
Proof.
  induction l as [|c l IH]; simpl.
  - exists []. reflexivity.
  - destruct (isspace c).
    + destruct IH as [sp IH]. exists (c :: sp). simpl. congruence.
    + exists []. reflexivity.
Qed.

Lemma lstrip_chars_head l :
  match lstrip_chars l with
  | [] => True
  | c :: _ => isspace c = false
  end.
Proof.
  induction l as [|c l IH]; simpl; [exact I|].
  destruct (isspace c) eqn:E; [exact IH | exact E].
Qed.

Lemma lstrip_chars_fixed c l : isspace c = false -> lstrip_chars (c :: l) = c :: l.
Proof. intros E. simpl. rewrite E. reflexivity. Qed.

Lemma lstrip_chars_idem l : lstrip_chars (lstrip_chars l) = lstrip_chars l.
Proof.
  pose proof (lstrip_chars_head l) as H.
  destruct (lstrip_chars l) as [|c m]; [reflexivity|].
  apply lstrip_chars_fixed, H.
Qed.

Lemma rstrip_chars_snoc l c :
  rstrip_chars (l ++ [c]) = if isspace c then rstrip_chars l else l ++ [c].
Proof.
  unfold rstrip_chars. rewrite rev_app_distr. simpl.
  destruct (isspace c); [reflexivity|].
  simpl. rewrite rev_involutive. reflexivity.
Qed.

Lemma rstrip_chars_idem l : rstrip_chars (rstrip_chars l) = rstrip_chars l.
Proof.
  unfold rstrip_chars. rewrite rev_involutive, lstrip_chars_idem. reflexivity.
Qed.

Lemma rstrip_chars_prefix l : exists sp, l = rstrip_chars l ++ sp.
Proof.
  unfold rstrip_chars.
  destruct (lstrip_chars_suffix (rev l)) as [sp H].
  exists (rev sp).
  rewrite <- rev_app_distr, <- H, rev_involutive. reflexivity.
Qed.

(** Stripping on the right keeps a first character that is no space. *)
Lemma rstrip_chars_keeps_head c l :
  isspace c = false -> exists m, rstrip_chars (c :: l) = c :: m.
Proof.
  intros E. induction l as [|d l IH] using rev_ind.
  - exists []. unfold rstrip_chars. simpl. rewrite E. reflexivity.
  - change (c :: l ++ [d]) with ((c :: l) ++ [d]).
    rewrite rstrip_chars_snoc. destruct (isspace d); [exact IH|].
    exists (l ++ [d]). reflexivity.
Qed.

Lemma strip_chars_head l :
  match strip_chars l with
  | [] => True
  | c :: _ => isspace c = false
  end.
Proof.
  unfold strip_chars. pose proof (lstrip_chars_head l) as H.
  destruct (lstrip_chars l) as [|c m]; [exact I|].
  destruct (rstrip_chars_keeps_head c m H) as [m' ->]. exact H.
Qed.

Lemma strip_chars_idem l : strip_chars (strip_chars l) = strip_chars l.
Proof.
  pose proof (strip_chars_head l) as H.
  unfold strip_chars at 1.
  destruct (strip_chars l) as [|c m] eqn:E; [reflexivity|].
  rewrite (lstrip_chars_fixed c m H), <- E.
  unfold strip_chars. apply rstrip_chars_idem.
Qed.

Lemma strip_idem s : strip (strip s) = strip s.
Proof.
  unfold strip. rewrite list_ascii_of_string_of_list_ascii, strip_chars_idem.
  reflexivity.
Qed.

Lemma truthy_true s : truthy s = true <-> s <> "".
Proof. destruct s; simpl; split; congruence. Qed.

Lemma truthy_false s : truthy s = false <-> s = "".
Proof. destruct s; simpl; split; congruence. Qed.

(** Stripping keeps a stretch of the characters. *)
Lemma strip_chars_Forall (P : ascii -> Prop) l :
  Forall P l -> Forall P (strip_chars l).
Proof.
  intros H. unfold strip_chars.
  destruct (lstrip_chars_suffix l) as [sp1 H1].
  destruct (rstrip_chars_prefix (lstrip_chars l)) as [sp2 H2].
  rewrite H1, H2 in H.
  apply Forall_app in H as [_ H]. apply Forall_app in H as [H _]. exact H.
Qed.

Lemma splitlines_chars_Forall n : forall l cur,
  length l <= n ->
  Forall (fun c => is_linebreak c = false) cur ->
  Forall (Forall (fun c => is_linebreak c = false)) (splitlines_chars cur l).
Proof.
  induction n as [|n IH]; intros l cur Hn Hcur.
  - destruct l; [|simpl in Hn; lia]. simpl.
    destruct cur; constructor; [|constructor].
    apply Forall_rev. exact Hcur.
  - destruct l as [|c l].
    + simpl. destruct cur; constructor; [|constructor].
      apply Forall_rev. exact Hcur.
    + simpl in Hn. simpl. destruct (is_linebreak c) eqn:E.
      * constructor; [apply Forall_rev; exact Hcur|].
        destruct l as [|c' l'].
        -- simpl. constructor.
        -- destruct ((nat_of_ascii c =? 13)%nat && (nat_of_ascii c' =? 10)%nat).
           ++ apply IH; [simpl in Hn; lia | constructor].
           ++ apply IH; [lia | constructor].
      * apply IH; [lia|]. constructor; assumption.
Qed.

Lemma splitlines_no_linebreak s :
  Forall (fun line => Forall (fun c => is_linebreak c = false) (list_ascii_of_string line))
         (splitlines s).
Proof.
  unfold splitlines. apply List.Forall_map.
  eapply List.Forall_impl;
    [|apply (splitlines_chars_Forall _ _ [] (le_n _)); constructor].
  intros l H. rewrite list_ascii_of_string_of_list_ascii. exact H.
Qed.
End PyStrFacts.

(** ** Dictionaries *)
Module PyDictFacts.
Import PyDict.
Section Facts.
Context {V : Type}.
Implicit Types (d : dict V) (k : string) (v : V).

Lemma get_set_eq k v d : get k (set k v d) = Some v.
Proof.
  induction d as [|[k' v'] d IH]; simpl.
  - rewrite String.eqb_refl. reflexivity.
  - destruct (String.eqb k k') eqn:E; simpl; rewrite E; [reflexivity | exact IH].
Qed.

Lemma get_set_ne k k' v d : k <> k' -> get k' (set k v d) = get k' d.
Proof.
  intros Hne. induction d as [|[k0 v0] d IH]; simpl.
  - apply String.eqb_neq in Hne. rewrite String.eqb_sym, Hne. reflexivity.
  - destruct (String.eqb k k0) eqn:E; simpl.
    + apply String.eqb_eq in E. subst k0.
      apply String.eqb_neq in Hne. rewrite String.eqb_sym, Hne. reflexivity.
    + rewrite IH. reflexivity.
Qed.

Lemma mem_In k d : mem k d = true <-> In k (keys d).
Proof.
  unfold mem. induction d as [|[k' v'] d IH]; simpl.
  - split; [discriminate | tauto].
  - destruct (String.eqb k k') eqn:E.
    + apply String.eqb_eq in E. split; auto.
    + apply String.eqb_neq in E. rewrite IH. split; [auto|].
      intros [H|H]; [congruence | exact H].
Qed.

Lemma mem_set_eq k v d : mem k (set k v d) = true.
Proof. unfold mem. rewrite get_set_eq. reflexivity. Qed.

Lemma keys_set k v d :
  keys (set k v d) = if mem k d then keys d else keys d ++ [k].
Proof.
  unfold mem, keys. induction d as [|[k' v'] d IH]; simpl; [reflexivity|].
  destruct (String.eqb k k') eqn:E; simpl; [reflexivity|].
  rewrite IH. destruct (get k d); reflexivity.
Qed.

Lemma length_set k v d :
  length (set k v d) = if mem k d then length d else S (length d).
Proof.
  unfold mem. induction d as [|[k' v'] d IH]; simpl; [reflexivity|].
  destruct (String.eqb k k') eqn:E; simpl; [reflexivity|].
  rewrite IH. destruct (get k d); reflexivity.
Qed.

(** Assigning twice to a key is assigning the second value. *)
Lemma set_set k v1 v2 d : set k v2 (set k v1 d) = set k v2 d.
Proof.
  induction d as [|[k' v'] d IH]; simpl.
  - rewrite String.eqb_refl. reflexivity.
  - destruct (String.eqb k k') eqn:E; simpl; rewrite E; [reflexivity|].
    rewrite IH. reflexivity.
Qed.

Lemma In_keys_set k k' v d :
  In k' (keys (set k v d)) <-> k' = k \/ In k' (keys d).
Proof.
  rewrite keys_set. destruct (mem k d) eqn:E.
  - apply mem_In in E. split; [auto|]. intros [->|H]; assumption.
  - rewrite in_app_iff. simpl. split; [intros [H|[H|[]]] | intros [H|H]]; auto.
Qed.

Lemma NoDup_keys_set k v d : NoDup (keys d) -> NoDup (keys (set k v d)).
Proof.
  intros H. rewrite keys_set. destruct (mem k d) eqn:E; [exact H|].
  apply NoDup_app. split; [exact H|]. split.
  - intros x Hx Hk. apply list_elem_of_In in Hx, Hk.
    destruct Hk as [<-|[]].
    apply mem_In in Hx. congruence.
  - apply NoDup_singleton.
Qed.

Lemma count_absent k d : ~ In k (keys d) -> count k d = 0.
Proof.
  unfold count. induction d as [|[k' v'] d IH]; simpl; [reflexivity|].
  intros H. destruct (String.eqb k k') eqn:E.
  - apply String.eqb_eq in E. subst k'. exfalso. apply H. left. reflexivity.
  - apply IH. intros Hin. apply H. right. exact Hin.
Qed.

(** A key in use holds one entry. *)
Lemma count_present k d : NoDup (keys d) -> In k (keys d) -> count k d = 1.
Proof.
  unfold count. induction d as [|[k' v'] d IH]; simpl; [tauto|].
  intros Hnd Hin. apply NoDup_cons in Hnd as [Hk' Hnd].
  rewrite list_elem_of_In in Hk'.
  destruct (String.eqb k k') eqn:E.
  - apply String.eqb_eq in E. subst k'. simpl.
    f_equal. apply (count_absent k d Hk').
  - apply String.eqb_neq in E. apply IH; [exact Hnd|].
    destruct Hin as [H|H]; [congruence | exact H].
Qed.
End Facts.
End PyDictFacts.

(** ** The script, section by section *)

Ltac script_unfold :=
  cbv [main before_evaluation name_section greeting_section role_section
       interview_section evaluation_section navigation
       mbind script_bind mret script_ret
       get_state put_state modify_state when stop st_rerun raise call
       save_audio transcribe_audio_file greeting_chain question_chain
       evaluation_chain save_results_csv USE_MOCK].

(** Case analysis on whatever the script branches on next. *)
Ltac script_case :=
  match goal with
  | |- context [match ?x with _ => _ end] =>
      lazymatch x with
      | context [match _ with _ => _ end] => fail
      | _ => destruct x eqn:?
      end
  end.

Ltac script_case_in H :=
  match type of H with
  | context [match ?x with _ => _ end] =>
      lazymatch x with
      | context [match _ with _ => _ end] => fail
      | _ => destruct x eqn:?
      end
  end.

Lemma with_session_same w : with_session (session w) w = w.
Proof. destruct w. reflexivity. Qed.

Lemma edit_role_untouched ui s :
  job_title ui = None -> job_description ui = None -> edit_role ui s = s.
Proof. intros H1 H2. unfold edit_role. rewrite H1, H2. destruct s. reflexivity. Qed.

Lemma name_section_eq ui w :
  name_section ui w =
  if PyStr.truthy (candidate_name (session w)) then (Next tt, w)
  else if submit_name ui && PyStr.truthy (PyStr.strip (enter_your_name ui))
       then (Stop RerunException,
             with_session (set_candidate_name (PyStr.strip (enter_your_name ui))
                                              (session w)) w)
       else (Stop Return, w).
Proof.
  script_unfold. cbn. repeat (script_case; cbn in *; try discriminate); reflexivity.
Qed.

Lemma greeting_section_eq svc w :
  greeting_section svc w =
  if greeting_done (session w) then (Next tt, w)
  else match run_greeting svc (candidate_name (session w)) with
       | Returns greeting =>
           (Stop RerunException,
            with_session (set_greeting_done true
                            (set_greeting_text greeting (session w))) w)
       | Raises e => (Stop (Uncaught e), w)
       end.
Proof.
  script_unfold. cbn. repeat (script_case; cbn in *; try discriminate); reflexivity.
Qed.

Lemma role_section_eq ui svc w :
  role_section ui svc w =
  let s := edit_role ui (session w) in
  if start_interview ui
     && PyStr.truthy (PyStr.strip (role s))
     && PyStr.truthy (PyStr.strip (description s))
  then match run_question svc (role s) (description s) with
       | Returns out =>
           (Stop RerunException, with_session (restart (question_lines out) s) w)
       | Raises e => (Stop (Uncaught e), with_session s w)
       end
  else (Next tt, with_session s w).
Proof.
  script_unfold. cbn. repeat (script_case; cbn in *; try discriminate); reflexivity.
Qed.

Lemma navigation_eq ui idx w :
  navigation ui idx w =
  let s := session w in
  if (0 <? idx)%nat && previous_question ui then
    (Stop RerunException, with_session (set_current_question (current_question s - 1) s) w)
  else if (idx <? length (questions s) - 1)%nat && next_question ui then
    (Stop RerunException, with_session (set_current_question (current_question s + 1) s) w)
  else if (idx =? length (questions s) - 1)%nat && finish_interview ui then
    (Stop RerunException, with_session (set_interview_complete true s) w)
  else (Next tt, w).
Proof.
  script_unfold. cbn. repeat (script_case; cbn in *; try discriminate); reflexivity.
Qed.

Lemma interview_section_eq ui svc w :
  interview_section ui svc w =
  let s := session w in
  match questions s with
  | [] => (Next tt, w)
  | _ :: _ =>
      if interview_complete s then (Next tt, w)
      else
        match questions s !! current_question s with
        | None => (Stop (Uncaught IndexError), w)
        | Some q_text =>
            match audio_recorder ui with
            | Some (b :: bs) =>
                let path := audio_path_of (candidate_name s) (current_question s) in
                let w1 := {| session := s;
                             files := <[path := b :: bs]> (files w);
                             open_wb := open_wb w;
                             results_file := results_file w |} in
                match write_error w (current_question s) with
                | Some e => (Stop (Uncaught e), w)
                | None =>
                    match transcriptions_create svc (b :: bs) with
                    | Returns t =>
                        navigation ui (current_question s)
                          (with_session
                             (set_responses
                                (PyDict.set q_text
                                   {| audio := path; text := PyStr.strip t |}
                                   (responses s)) s) w1)
                    | Raises e => (Stop (Uncaught e), w1)
                    end
                end
            | _ =>
                if PyDict.mem q_text (responses s)
                then navigation ui (current_question s) w
                else (Next tt, w)
            end
        end
  end.
Proof.
  destruct w as [s fs host rf]. cbn [session files open_wb results_file].
  cbv [interview_section mbind script_bind mret script_ret get_state put_state
       modify_state when stop raise call save_audio transcribe_audio_file
       USE_MOCK with_session write_error audio_path_of].
  cbn [session files open_wb results_file].
  destruct (questions s) as [|q0 qs] eqn:Hqs; [reflexivity|].
  destruct (interview_complete s); [reflexivity|]. cbn [negb andb].
  destruct ((q0 :: qs) !! current_question s) as [q_text|]; [|reflexivity].
  destruct (audio_recorder ui) as [[|b bs]|];
    cbn [default from_option id session files open_wb results_file].
  - destruct (PyDict.mem q_text (responses s)); reflexivity.
  - destruct (host _); [reflexivity|].
    cbn [session files open_wb results_file].
    rewrite lookup_insert_eq.
    destruct (transcriptions_create svc (b :: bs)); [|reflexivity].
    cbn [session responses set_responses].
    rewrite PyDictFacts.mem_set_eq. reflexivity.
  - destruct (PyDict.mem q_text (responses s)); reflexivity.
Qed.

Lemma evaluation_section_eq svc w :
  evaluation_section svc w =
  let s := session w in
  if interview_complete s then
    match run_evaluation svc (role s)
            (PyStr.join (String "010" (String "010" "")) (qa_pairs (responses s))) with
    | Returns eval_result =>
        (Next tt,
         {| session := s; files := files w; open_wb := open_wb w;
            results_file :=
              Some match results_file w with
                   | None => csv_header :: rows_of (s, eval_result)
                   | Some old => old ++ rows_of (s, eval_result)
                   end |})
    | Raises e => (Stop (Uncaught e), w)
    end
  else (Next tt, w).
Proof.
  script_unfold. cbn. repeat (script_case; cbn in *; try discriminate); reflexivity.
Qed.

Lemma main_eq ui svc w :
  main ui svc w = (before_evaluation ui svc;; evaluation_section svc) w.
Proof.
  unfold main, before_evaluation. cbv [mbind script_bind].
  destruct (name_section ui w) as [[[]|c] w1]; [|reflexivity].
  destruct (greeting_section svc w1) as [[[]|c] w2]; [|reflexivity].
  destruct (role_section ui svc w2) as [[[]|c] w3]; [|reflexivity].
  destruct (interview_section ui svc w3) as [[[]|c] w4]; reflexivity.
Qed.

(** A question section that runs to its end has changed neither flag. *)
Lemma interview_section_next ui svc w a w' :
  interview_section ui svc w = (Next a, w') ->
  interview_complete (session w') = interview_complete (session w).
Proof.
  rewrite interview_section_eq. cbv zeta.
  repeat (script_case; try discriminate);
    try rewrite navigation_eq; cbv zeta;
    repeat (script_case; try discriminate);
    intros [= <- <-]; cbn; congruence.
Qed.

Lemma phase_of_edit_role ui s : phase_of (edit_role ui s) = phase_of s.
Proof. reflexivity. Qed.

(** [phase_of] names the sections a run goes through. *)
Lemma main_by_phase ui svc w :
  main ui svc w =
  match phase_of (session w) with
  | AwaitingName => name_section ui w
  | AwaitingGreeting => greeting_section svc w
  | AwaitingRole => role_section ui svc w
  | Interviewing => (role_section ui svc;; interview_section ui svc) w
  | Completed => (role_section ui svc;; evaluation_section svc) w
  end.
Proof.
  rewrite main_eq. unfold before_evaluation, phase_of. cbv [mbind script_bind].
  rewrite name_section_eq.
  destruct (PyStr.truthy (candidate_name (session w))) eqn:Hn; cbn [negb].
  2:{ rewrite <- (negb_involutive (PyStr.truthy _)) in Hn.
      destruct (submit_name ui && PyStr.truthy (PyStr.strip (enter_your_name ui)));
        reflexivity. }
  rewrite greeting_section_eq.
  destruct (greeting_done (session w)) eqn:Hg; cbn [negb].
  2:{ destruct (run_greeting svc (candidate_name (session w))); reflexivity. }
  destruct (role_section ui svc w) as [[[]|c] w1] eqn:Hrole.
  2:{ destruct (interview_complete (session w)); [reflexivity|].
      destruct (questions (session w)); reflexivity. }
  assert (Hw1 : w1 = with_session (edit_role ui (session w)) w).
  { rewrite role_section_eq in Hrole. cbv zeta in Hrole.
    repeat (script_case_in Hrole; try discriminate). congruence. }
  destruct (interview_complete (session w)) eqn:Hc.
  - rewrite interview_section_eq, Hw1. cbn [session with_session].
    change (interview_complete (edit_role ui (session w)))
      with (interview_complete (session w)).
    rewrite Hc. destruct (questions (edit_role ui (session w))); reflexivity.
  - destruct (interview_section ui svc w1) as [[[]|c] w2] eqn:Hint.
    + pose proof (interview_section_next _ _ _ _ _ Hint) as Hc2.
      rewrite Hw1 in Hc2. cbn in Hc2. rewrite Hc in Hc2.
      rewrite evaluation_section_eq. cbv zeta. rewrite Hc2.
      destruct (questions (session w)) eqn:Hq; [|reflexivity].
      rewrite interview_section_eq, Hw1 in Hint. cbn in Hint.
      rewrite Hq in Hint. congruence.
    + destruct (questions (session w)) eqn:Hq; [|reflexivity].
      rewrite interview_section_eq, Hw1 in Hint. cbn in Hint.
      rewrite Hq in Hint. discriminate.
Qed.

(** ** What the script keeps true *)

Lemma preserves_bind {A B : Type} (P : session_state -> Prop)
    (m : script A) (k : A -> script B) :
  preserves P m -> (forall a, preserves P (k a)) -> preserves P (m ≫= k).
Proof.
  intros Hm Hk w Hw. cbv [mbind script_bind].
  specialize (Hm w Hw). destruct (m w) as [[a|c] w1]; [|exact Hm].
  apply Hk. exact Hm.
Qed.

Lemma session_ok_ext s s' :
  questions s' = questions s -> responses s' = responses s ->
  current_question s' = current_question s ->
  session_ok s -> session_ok s'.
Proof. unfold session_ok. intros -> -> ->. tauto. Qed.

Lemma session_ok_restart qs s : session_ok (restart qs s).
Proof.
  unfold session_ok. cbn. split; [constructor|]. split; [intros k []|].
  destruct qs; [left; reflexivity | right; cbn; lia].
Qed.

Lemma session_ok_record q a s :
  In q (questions s) -> session_ok s ->
  session_ok (set_responses (PyDict.set q a (responses s)) s).
Proof.
  intros Hq (Hnd & Hin & Hcur). unfold session_ok. cbn.
  split; [apply PyDictFacts.NoDup_keys_set, Hnd|]. split; [|exact Hcur].
  intros k Hk. apply PyDictFacts.In_keys_set in Hk as [->|Hk]; auto.
Qed.

Lemma name_section_ok ui : preserves session_ok (name_section ui).
Proof.
  intros w Hw. rewrite name_section_eq.
  repeat (script_case; try exact Hw).
Qed.

Lemma greeting_section_ok svc : preserves session_ok (greeting_section svc).
Proof.
  intros w Hw. rewrite greeting_section_eq.
  repeat (script_case; try exact Hw).
Qed.

Lemma role_section_ok ui svc : preserves session_ok (role_section ui svc).
Proof.
  intros w Hw. rewrite role_section_eq. cbv zeta.
  repeat script_case; cbn [snd session with_session];
    try exact Hw.
  apply session_ok_restart.
Qed.

Lemma navigation_ok ui w :
  session_ok (session w) ->
  session_ok (session (snd (navigation ui (current_question (session w)) w))).
Proof.
  intros (Hnd & Hin & Hcur). rewrite navigation_eq. cbv zeta.
  repeat script_case; cbn [snd session with_session];
    unfold session_ok; cbn; repeat split; try assumption.
  - apply andb_true_iff in Heqb as [Hlt _]. apply Nat.ltb_lt in Hlt.
    destruct Hcur as [Hq|Hcur]; [left; exact Hq | right; lia].
  - apply andb_true_iff in Heqb0 as [Hlt _]. apply Nat.ltb_lt in Hlt.
    right. lia.
Qed.

Lemma interview_section_ok ui svc : preserves session_ok (interview_section ui svc).
Proof.
  intros w Hw. rewrite interview_section_eq. cbv zeta.
  destruct (questions (session w)) as [|q0 qs] eqn:Hqs; [exact Hw|].
  destruct (interview_complete (session w)); [exact Hw|].
  destruct ((q0 :: qs) !! current_question (session w)) as [q|] eqn:Hq;
    [|exact Hw].
  assert (Hin : In q (questions (session w))).
  { rewrite Hqs. apply list_elem_of_In. eapply list_elem_of_lookup_2, Hq. }
  destruct (audio_recorder ui) as [[|b bs]|].
  - destruct (PyDict.mem q (responses (session w)));
      [apply navigation_ok, Hw | exact Hw].
  - destruct (write_error w (current_question (session w))); [exact Hw|].
    destruct (transcriptions_create svc (b :: bs)); [|exact Hw].
    match goal with
    | |- context [navigation ui _ ?w1] =>
        apply (navigation_ok ui w1)
    end.
    cbn [session with_session]. apply session_ok_record; assumption.
  - destruct (PyDict.mem q (responses (session w)));
      [apply navigation_ok, Hw | exact Hw].
Qed.

Lemma evaluation_section_ok svc : preserves session_ok (evaluation_section svc).
Proof.
  intros w Hw. rewrite evaluation_section_eq. cbv zeta.
  repeat script_case; exact Hw.
Qed.

(** Every run keeps the session well formed. *)
Lemma run_session_ok ui svc w :
  session_ok (session w) -> session_ok (session (run ui svc w)).
Proof.
  revert w. change (preserves session_ok (main ui svc)). unfold main.
  apply preserves_bind; [apply name_section_ok | intros _].
  apply preserves_bind; [apply greeting_section_ok | intros _].
  apply preserves_bind; [apply role_section_ok | intros _].
  apply preserves_bind; [apply interview_section_ok | intros _].
  apply evaluation_section_ok.
Qed.

Lemma session_ok_default : session_ok default_state.
Proof.
  unfold session_ok. cbn. split; [constructor|]. split; [intros k []|].
  left. reflexivity.
Qed.

Lemma interact_session_ok trace w :
  session_ok (session w) -> session_ok (session (interact trace w)).
Proof.
  revert w. induction trace as [|i trace IH]; intros w Hw; [exact Hw|].
  cbn. apply IH, run_session_ok, Hw.
Qed.

(** ** Runs in the interviewing phase *)

Lemma phase_interviewing s :
  phase_of s = Interviewing ->
  PyStr.truthy (candidate_name s) = true /\ greeting_done s = true
  /\ interview_complete s = false /\ questions s <> [].
Proof.
  unfold phase_of.
  destruct (PyStr.truthy (candidate_name s)), (greeting_done s),
    (interview_complete s), (questions s); cbn; try discriminate.
  intros _. repeat split. discriminate.
Qed.

Lemma role_section_idle ui svc w :
  start_interview ui = false -> job_title ui = None -> job_description ui = None ->
  role_section ui svc w = (Next tt, w).
Proof.
  intros Hs Ht Hd. rewrite role_section_eq. cbv zeta. rewrite Hs. cbn [andb].
  rewrite (edit_role_untouched _ _ Ht Hd), with_session_same. reflexivity.
Qed.

Lemma main_interviewing ui svc w :
  phase_of (session w) = Interviewing ->
  start_interview ui = false -> job_title ui = None -> job_description ui = None ->
  main ui svc w = interview_section ui svc w.
Proof.
  intros Hp Hs Ht Hd. rewrite main_by_phase, Hp. cbv [mbind script_bind].
  rewrite (role_section_idle _ _ _ Hs Ht Hd). reflexivity.
Qed.

(** A run that hands over a recording that can be written: the file is
    written, then the transcription decides whether a response is stored. *)
Lemma record_run w svc q b bs :
  phase_of (session w) = Interviewing ->
  questions (session w) !! current_question (session w) = Some q ->
  write_error w (current_question (session w)) = None ->
  main (record_answer (b :: bs)) svc w =
  let s := session w in
  let path := audio_path_of (candidate_name s) (current_question s) in
  match transcriptions_create svc (b :: bs) with
  | Returns t =>
      (Next tt,
       {| session :=
            set_responses
              (PyDict.set q {| audio := path; text := PyStr.strip t |} (responses s)) s;
          files := <[path := b :: bs]> (files w);
          open_wb := open_wb w;
          results_file := results_file w |})
  | Raises e =>
      (Stop (Uncaught e),
       {| session := s; files := <[path := b :: bs]> (files w);
          open_wb := open_wb w;
          results_file := results_file w |})
  end.
Proof.
  intros Hp Hq Hw. rewrite (main_interviewing _ _ _ Hp); try reflexivity.
  apply phase_interviewing in Hp as (_ & _ & Hc & Hqs).
  rewrite interview_section_eq. cbv zeta. rewrite Hc, Hq, Hw.
  destruct (questions (session w)); [congruence|]. cbn [record_answer audio_recorder].
  destruct (transcriptions_create svc (b :: bs)); [|reflexivity].
  rewrite navigation_eq. cbn. rewrite !andb_false_r. reflexivity.
Qed.

(** A run that hands over a recording that cannot be written ends where
    [save_audio] opens the file: no service is called and nothing is stored. *)
Lemma unwritable_record_run w svc q b bs e :
  phase_of (session w) = Interviewing ->
  questions (session w) !! current_question (session w) = Some q ->
  write_error w (current_question (session w)) = Some e ->
  main (record_answer (b :: bs)) svc w = (Stop (Uncaught e), w).
Proof.
  intros Hp Hq Hw. rewrite (main_interviewing _ _ _ Hp); try reflexivity.
  apply phase_interviewing in Hp as (_ & _ & Hc & Hqs).
  rewrite interview_section_eq. cbv zeta. rewrite Hc, Hq, Hw.
  destruct (questions (session w)); [congruence|]. reflexivity.
Qed.

(** A run of navigation clicks alone: they count only below a question
    that has a response. *)
Lemma navigation_run ui svc w q :
  phase_of (session w) = Interviewing ->
  questions (session w) !! current_question (session w) = Some q ->
  start_interview ui = false -> job_title ui = None -> job_description ui = None ->
  audio_recorder ui = None ->
  main ui svc w =
  if PyDict.mem q (responses (session w))
  then navigation ui (current_question (session w)) w
  else (Next tt, w).
Proof.
  intros Hp Hq Hs Ht Hd Ha. rewrite (main_interviewing _ _ _ Hp Hs Ht Hd).
  apply phase_interviewing in Hp as (_ & _ & Hc & Hqs).
  rewrite interview_section_eq. cbv zeta. rewrite Hc, Hq, Ha.
  destruct (questions (session w)); [congruence|]. reflexivity.
Qed.

(** An empty recording is no recording. *)
Lemma empty_recording_run svc w q :
  phase_of (session w) = Interviewing ->
  questions (session w) !! current_question (session w) = Some q ->
  main (record_answer []) svc w = (Next tt, w).
Proof.
  intros Hp Hq. rewrite (main_interviewing _ _ _ Hp); try reflexivity.
  apply phase_interviewing in Hp as (_ & _ & Hc & Hqs).
  rewrite interview_section_eq. cbv zeta. rewrite Hc, Hq.
  destruct (questions (session w)); [congruence|]. cbn [record_answer audio_recorder].
  destruct (PyDict.mem q (responses (session w))); [|reflexivity].
  rewrite navigation_eq. cbn. rewrite !andb_false_r. reflexivity.
Qed.

Lemma answer_at_lookup s idx q :
  questions s !! idx = Some q -> answer_at s idx = PyDict.get q (responses s).
Proof. intros H. unfold answer_at. rewrite H. reflexivity. Qed.

(** Keys that are distinct and drawn from a list with a repetition are
    fewer than the list is long. *)
Lemma fewer_keys_than_repeated (keys qs : list string) i j q :
  NoDup keys -> (forall k, In k keys -> In k qs) ->
  i <> j -> qs !! i = Some q -> qs !! j = Some q ->
  length keys < length qs.
Proof.
  intros Hnd Hin Hij Hi Hj.
  destruct (Nat.lt_ge_cases (length keys) (length qs)) as [H|H]; [exact H|].
  exfalso. apply Hij.
  apply (NoDup_lookup qs i j q); [|exact Hi|exact Hj].
  apply NoDup_ListNoDup.
  eapply List.NoDup_incl_NoDup; [apply NoDup_ListNoDup, Hnd | exact H | exact Hin].
Qed.

(** ** Recordings on disk *)

(** For a name that does not begin with a slash the recording goes under
    [audios/]. *)
Lemma audio_path_relative name idx :
  PyStr.startswith "/" name = false ->
  audio_path_of name idx
  = "audios/" +:+ PyStr.replace " " "_" name +:+ "_Q" +:+ PyStr.of_nat (idx + 1)
    +:+ ".wav".
Proof.
  intros Hname. unfold audio_path_of, os_path_join, audio_filename.
  assert (Hrel : PyStr.startswith "/"
                   (PyStr.replace " " "_" name +:+ "_Q" +:+ PyStr.of_nat (idx + 1)
                    +:+ ".wav") = false).
  { destruct name as [|c name]; [reflexivity|]. cbn in Hname |- *.
    destruct (Ascii.eqb c " "); [reflexivity | exact Hname]. }
  rewrite Hrel. reflexivity.
Qed.

(** The recording is written before the transcription is asked for: when
    the transcription fails the file is there and the responses are as they
    were. *)
Lemma recording_outlives_failed_transcription w svc q b bs e :
  phase_of (session w) = Interviewing ->
  questions (session w) !! current_question (session w) = Some q ->
  write_error w (current_question (session w)) = None ->
  transcriptions_create svc (b :: bs) = Raises e ->
  let w' := run (record_answer (b :: bs)) svc w in
  files w' !! audio_path_of (candidate_name (session w)) (current_question (session w))
  = Some (b :: bs)
  /\ responses (session w') = responses (session w).
Proof.
  intros Hp Hq Hw He w'. subst w'. unfold run.
  rewrite (record_run w svc q b bs Hp Hq Hw). cbv zeta. rewrite He. cbn.
  split; [apply lookup_insert_eq | reflexivity].
Qed.

(** ** Starting an interview *)

Lemma start_run w svc title desc :
  PyStr.truthy (candidate_name (session w)) = true ->
  greeting_done (session w) = true ->
  main (click_start title desc) svc w =
  let s := set_description desc (set_role title (session w)) in
  if PyStr.truthy (PyStr.strip title) && PyStr.truthy (PyStr.strip desc) then
    match run_question svc title desc with
    | Returns out =>
        (Stop RerunException, with_session (restart (question_lines out) s) w)
    | Raises e => (Stop (Uncaught e), with_session s w)
    end
  else
    (interview_section (click_start title desc) svc;; evaluation_section svc)
      (with_session s w).
Proof.
  intros Hn Hg. rewrite main_eq. unfold before_evaluation.
  cbv [mbind script_bind]. rewrite name_section_eq, Hn, greeting_section_eq, Hg.
  rewrite role_section_eq. cbv zeta.
  cbn [click_start start_interview job_title job_description edit_role default
       from_option id role description set_role set_description andb].
  destruct (PyStr.truthy (PyStr.strip title) && PyStr.truthy (PyStr.strip desc)).
  - destruct (run_question svc title desc); reflexivity.
  - destruct (interview_section _ _ _) as [[[]|c] w1]; reflexivity.
Qed.

(** The run of a click on "Start Interview" that passes the guard. *)
Lemma start_run_accepted w svc title desc out :
  PyStr.truthy (candidate_name (session w)) = true ->
  greeting_done (session w) = true ->
  PyStr.strip title <> "" ->
  PyStr.strip desc <> "" ->
  run_question svc title desc = Returns out ->
  main (click_start title desc) svc w
  = (Stop RerunException,
     with_session
       (restart (question_lines out)
                (set_description desc (set_role title (session w)))) w).
Proof.
  intros Hn Hg Ht Hd Hout.
  apply PyStrFacts.truthy_true in Ht, Hd.
  rewrite (start_run w svc title desc Hn Hg). cbv zeta.
  rewrite Ht, Hd, Hout. reflexivity.
Qed.

(** The questions the script keeps are whole lines, stripped, none blank. *)
Lemma question_lines_stripped out :
  Forall (fun q => q <> "" /\ PyStr.strip q = q
                   /\ Forall (fun c => PyStr.is_linebreak c = false)
                             (list_ascii_of_string q))
         (question_lines out).
Proof.
  unfold question_lines. apply List.Forall_map.
  apply List.Forall_forall. intros line Hline.
  apply List.filter_In in Hline as [Hline Hblank].
  split; [apply PyStrFacts.truthy_true, Hblank|].
  split; [apply PyStrFacts.strip_idem|].
  unfold PyStr.strip. rewrite list_ascii_of_string_of_list_ascii.
  apply PyStrFacts.strip_chars_Forall.
  pose proof (PyStrFacts.splitlines_no_linebreak out) as H.
  rewrite List.Forall_forall in H. apply H, Hline.
Qed.

(** ** The results file *)

Lemma keeps_results_bind {A B : Type} (m : script A) (k : A -> script B) :
  keeps_results m -> (forall a, keeps_results (k a)) -> keeps_results (m ≫= k).
Proof.
  intros Hm Hk w. cbv [mbind script_bind].
  specialize (Hm w). destruct (m w) as [[a|c] w1]; [|exact Hm].
  rewrite Hk. exact Hm.
Qed.

Lemma name_section_keeps_results ui : keeps_results (name_section ui).
Proof. intros w. rewrite name_section_eq. repeat script_case; reflexivity. Qed.

Lemma greeting_section_keeps_results svc : keeps_results (greeting_section svc).
Proof. intros w. rewrite greeting_section_eq. repeat script_case; reflexivity. Qed.

Lemma role_section_keeps_results ui svc : keeps_results (role_section ui svc).
Proof.
  intros w. rewrite role_section_eq. cbv zeta. repeat script_case; reflexivity.
Qed.

Lemma navigation_keeps_results ui idx : keeps_results (navigation ui idx).
Proof.
  intros w. rewrite navigation_eq. cbv zeta. repeat script_case; reflexivity.
Qed.

Lemma interview_section_keeps_results ui svc : keeps_results (interview_section ui svc).
Proof.
  intros w. rewrite interview_section_eq. cbv zeta.
  repeat (script_case; try reflexivity);
    rewrite navigation_keeps_results; reflexivity.
Qed.

Lemma before_evaluation_keeps_results ui svc : keeps_results (before_evaluation ui svc).
Proof.
  unfold before_evaluation.
  apply keeps_results_bind; [apply name_section_keeps_results | intros _].
  apply keeps_results_bind; [apply greeting_section_keeps_results | intros _].
  apply keeps_results_bind; [apply role_section_keeps_results | intros _].
  apply interview_section_keeps_results.
Qed.

(** One run appends what it saves, and nothing else. *)
Lemma run_results_file ui svc w :
  results_file (run ui svc w)
  = append_saves (results_file w)
      match saved_by ui svc w with Some sv => [sv] | None => [] end.
Proof.
  unfold run, saved_by. rewrite main_eq. cbv [mbind script_bind].
  pose proof (before_evaluation_keeps_results ui svc w) as Hkeep.
  destruct (before_evaluation ui svc w) as [[[]|c] w1]; cbn [snd] in *;
    [|exact Hkeep].
  rewrite evaluation_section_eq. cbv zeta.
  destruct (interview_complete (session w1)); [|exact Hkeep].
  destruct (run_evaluation _ _ _); [|exact Hkeep].
  cbn. rewrite Hkeep. reflexivity.
Qed.

Lemma append_saves_app rf svs1 svs2 :
  append_saves rf (svs1 ++ svs2) = append_saves (append_saves rf svs1) svs2.
Proof.
  revert rf. induction svs1 as [|sv svs1 IH]; intros rf; [reflexivity|].
  cbn. apply IH.
Qed.

Lemma interact_results_file trace w :
  results_file (interact trace w) = append_saves (results_file w) (saves trace w).
Proof.
  revert w. induction trace as [|i trace IH]; intros w; [reflexivity|].
  cbn [interact fold_left saves]. fold (interact trace (run (fst i) (snd i) w)).
  rewrite IH, run_results_file, append_saves_app. reflexivity.
Qed.

Lemma append_saves_some old svs :
  append_saves (Some old) svs = Some (old ++ concat (map rows_of svs)).
Proof.
  revert old. induction svs as [|sv svs IH]; intros old; cbn.
  - rewrite app_nil_r. reflexivity.
  - rewrite IH, <- app_assoc. reflexivity.
Qed.

Lemma length_concat_rows svs :
  length (concat (map rows_of svs))
  = list_sum (map (fun sv => length (responses (fst sv))) svs).
Proof.
  induction svs as [|sv svs IH]; [reflexivity|].
  cbn. rewrite length_app, IH. unfold rows_of, PyDict.items.
  rewrite length_map. reflexivity.
Qed.

(** Only a run that begins with the interview complete gets to save, and it
    saves the session it began with, the role form applied. *)
Lemma saved_by_completed ui svc w sv :
  saved_by ui svc w = Some sv ->
  phase_of (session w) = Completed /\ fst sv = edit_role ui (session w).
Proof.
  unfold saved_by, before_evaluation. cbv [mbind script_bind].
  rewrite name_section_eq.
  destruct (PyStr.truthy (candidate_name (session w))) eqn:Hn.
  2:{ repeat script_case; discriminate. }
  rewrite greeting_section_eq.
  destruct (greeting_done (session w)) eqn:Hg.
  2:{ repeat script_case; discriminate. }
  rewrite role_section_eq. cbv zeta.
  destruct (start_interview ui && _ && _).
  { repeat script_case; discriminate. }
  destruct (interview_section ui svc _) as [[[]|c] w1] eqn:Hint; [|discriminate].
  pose proof (interview_section_next _ _ _ _ _ Hint) as Hc. cbn in Hc.
  destruct (interview_complete (session w1)) eqn:Hc1; [|discriminate].
  rewrite interview_section_eq in Hint. cbn in Hint. rewrite <- Hc in Hint.
  assert (Hw1 : w1 = with_session (edit_role ui (session w)) w).
  { destruct (questions (session w)); congruence. }
  destruct (run_evaluation _ _ _); [|discriminate].
  intros [= <-]. split; [|rewrite Hw1; reflexivity].
  unfold phase_of. rewrite Hn, Hg, <- Hc. reflexivity.
Qed.

(** A run without interaction in the completed phase saves, each time. *)
Lemma saved_by_idle svc w eval_result :
  phase_of (session w) = Completed ->
  run_evaluation svc (role (session w))
    (PyStr.join (String "010" (String "010" "")) (qa_pairs (responses (session w))))
  = Returns eval_result ->
  saved_by idle svc w = Some (session w, eval_result).
Proof.
  intros Hp He.
  assert (Hflags : PyStr.truthy (candidate_name (session w)) = true
                   /\ greeting_done (session w) = true
                   /\ interview_complete (session w) = true).
  { revert Hp. unfold phase_of.
    destruct (PyStr.truthy (candidate_name (session w))), (greeting_done (session w)),
      (interview_complete (session w)), (questions (session w)); cbn;
      try discriminate; auto. }
  destruct Hflags as (Hn & Hg & Hc).
  unfold saved_by, before_evaluation. cbv [mbind script_bind].
  rewrite name_section_eq, Hn, greeting_section_eq, Hg.
  rewrite role_section_idle by reflexivity.
  rewrite interview_section_eq. cbv zeta. rewrite Hc.
  destruct (questions (session w)); rewrite Hc, He; reflexivity.
Qed.

(** One interview, saved twice: Ava completes an interview with two answers
    and, with the evaluation on the page, corrects the job title.  The run
    that the correction triggers evaluates and saves again, and the file
    holds five records. *)
Lemma one_interview_saved_twice :
  completions ava_edits_title fresh_world = [2]
  /\ length (saves ava_edits_title fresh_world) = 2
  /\ sink_rows (interact ava_edits_title fresh_world) = 5.
Proof. vm_compute. repeat split. Qed.

(** * The claims *)

(** C1, as stated, fails: Bo completes one interview of two questions, both
    answered, and the file holds the header and one record, since the two
    questions have the same text and so share one response. *)
Lemma rows_are_responses_not_questions :
  completions bo_finishes fresh_world = [2]
  /\ sink_rows (interact bo_finishes fresh_world) = 2
  /\ ~ (forall trace,
          completions trace fresh_world <> [] ->
          sink_rows (interact trace fresh_world)
          = 1 + list_sum (completions trace fresh_world)).
Proof.
  split; [vm_compute; reflexivity|]. split; [vm_compute; reflexivity|].
  intros H. specialize (H bo_finishes).
  vm_compute in H. specialize (H ltac:(discriminate)). discriminate.
Qed.

(** C1, amended: a save appends one record per entry of [responses], after
    the header when it finds no file, and only a run that begins with the
    interview complete saves.  So on a machine without a results file,
    whatever the runs of a visit, the file is absent as long as no run
    saved, and otherwise holds the header once, in front, followed by the
    records of the saves in order: 1 + the sum of the numbers of responses
    of the saved sessions. *)
Theorem results_file_after_visit trace w :
  results_file w = None ->
  results_file (interact trace w)
  = match saves trace w with
    | [] => None
    | _ :: _ => Some (csv_header :: concat (map rows_of (saves trace w)))
    end
  /\ (saves trace w <> [] ->
      sink_rows (interact trace w)
      = 1 + list_sum (map (fun sv => length (responses (fst sv))) (saves trace w)))
  /\ (forall ui svc w0 sv,
        saved_by ui svc w0 = Some sv -> phase_of (session w0) = Completed).
Proof.
  intros Hnone.
  assert (Hfile : results_file (interact trace w)
                  = match saves trace w with
                    | [] => None
                    | _ :: _ =>
                        Some (csv_header :: concat (map rows_of (saves trace w)))
                    end).
  { rewrite interact_results_file, Hnone.
    destruct (saves trace w) as [|sv svs]; [reflexivity|].
    cbn [append_saves]. rewrite append_saves_some. reflexivity. }
  split; [exact Hfile|]. split.
  - intros Hsaves. unfold sink_rows. rewrite Hfile.
    destruct (saves trace w) as [|sv svs] eqn:E; [congruence|].
    cbn [length]. rewrite length_concat_rows. reflexivity.
  - intros ui svc w0 sv Hsv. apply (saved_by_completed ui svc w0 sv Hsv).
Qed.

Lemma results_file_after_visit_witness :
  sink_rows (interact bo_finishes fresh_world)
  = 1 + list_sum (map (fun sv => length (responses (fst sv)))
                      (saves bo_finishes fresh_world)).
Proof.
  destruct (results_file_after_visit bo_finishes fresh_world)
    as (_ & Hrows & _); [reflexivity|].
  apply Hrows. vm_compute. discriminate.
Defined.

(** C2, as stated, fails: before and after "Finish Interview" the session
    holds the same name, greeting, role, questions and responses, and the
    phase differs; it is the flag [interview_complete] that tells. *)
Lemma phase_not_determined_by_data :
  ~ (forall s1 s2, same_data s1 s2 -> phase_of s1 = phase_of s2).
Proof.
  intros H.
  specialize (H (session all_answered)
                (session (run click_finish groq_up all_answered))).
  vm_compute in H. discriminate H. repeat split.
Qed.

(** C2, amended: the phase of the script, the sections a run of [main] goes
    through, is a function of four keys of the session, the candidate's
    name, the questions and the two stored flags [greeting_done] and
    [interview_complete].  Whatever the widgets and the services, a run of
    [main] from a session that agrees on these four keys with another one
    goes through the sections of the other one's phase: the name form alone,
    the greeting alone, the role form alone, the role form and a question,
    or the role form and the evaluation.  The initialisation loop leaves a
    stored session as it is, so the phase of a restored session is the phase
    of the stored one, however often it is restored. *)
Theorem phase_determined_by_flags_and_data ui svc w1 w2 :
  candidate_name (session w1) = candidate_name (session w2) ->
  greeting_done (session w1) = greeting_done (session w2) ->
  interview_complete (session w1) = interview_complete (session w2) ->
  questions (session w1) = questions (session w2) ->
  phase_of (session w1) = phase_of (session w2)
  /\ main ui svc w1
     = match phase_of (session w2) with
       | AwaitingName => name_section ui w1
       | AwaitingGreeting => greeting_section svc w1
       | AwaitingRole => role_section ui svc w1
       | Interviewing => (role_section ui svc;; interview_section ui svc) w1
       | Completed => (role_section ui svc;; evaluation_section svc) w1
       end
  /\ phase_of (session_init (Some (session w1))) = phase_of (session w1)
  /\ session_init (Some (session_init (Some (session w1))))
     = session_init (Some (session w1)).
Proof.
  intros Hn Hg Hc Hq.
  assert (Hp : phase_of (session w1) = phase_of (session w2)).
  { unfold phase_of. rewrite Hn, Hg, Hc, Hq. reflexivity. }
  split; [exact Hp|]. split; [|split; reflexivity].
  rewrite <- Hp. apply main_by_phase.
Qed.

Lemma phase_determined_by_flags_and_data_witness :
  phase_of (session all_answered)
  = phase_of (session (run (record_answer [x46]) groq_up all_answered))
  /\ main click_previous groq_down all_answered
     = (role_section click_previous groq_down;;
        interview_section click_previous groq_down) all_answered.
Proof.
  destruct (phase_determined_by_flags_and_data click_previous groq_down
              all_answered (run (record_answer [x46]) groq_up all_answered))
    as (Hp & Hmain & _);
    [vm_compute; reflexivity | vm_compute; reflexivity | vm_compute; reflexivity
    | vm_compute; reflexivity |].
  split; [exact Hp|].
  replace (phase_of (session (run (record_answer [x46]) groq_up all_answered)))
    with Interviewing in Hmain by (vm_compute; reflexivity).
  exact Hmain.
Defined.

(** C3: in the interviewing phase a click on "Finish Interview" completes the
    interview exactly when the cursor is on the last question and the text
    of that question has a response: the run then sets [interview_complete]
    and nothing else.  In every other state the click is without effect:
    the run ends normally and leaves the world, phase and cursor included,
    as it was. *)
Theorem finish_guard w svc q :
  phase_of (session w) = Interviewing ->
  questions (session w) !! current_question (session w) = Some q ->
  let s := session w in
  let last := current_question s = length (questions s) - 1 in
  let answered := answer_at s (current_question s) <> None in
  (last /\ answered ->
     main click_finish svc w
     = (Stop RerunException, with_session (set_interview_complete true s) w)
     /\ phase_of (session (run click_finish svc w)) = Completed)
  /\ (~ (last /\ answered) ->
        main click_finish svc w = (Next tt, w)
        /\ phase_of (session (run click_finish svc w)) = Interviewing)
  /\ (interview_complete (session (run click_finish svc w)) = true
      <-> last /\ answered).
Proof.
  intros Hp Hq s last answered. subst s last answered.
  assert (Hmain : main click_finish svc w =
            if (current_question (session w) =? length (questions (session w)) - 1)%nat
               && PyDict.mem q (responses (session w))
            then (Stop RerunException,
                  with_session (set_interview_complete true (session w)) w)
            else (Next tt, w)).
  { rewrite (navigation_run click_finish svc w q Hp Hq); try reflexivity.
    destruct (PyDict.mem q (responses (session w)));
      [|rewrite andb_false_r; reflexivity].
    rewrite navigation_eq. cbn. rewrite !andb_false_r, !andb_true_r. reflexivity. }
  assert (Hguard :
            (current_question (session w) =? length (questions (session w)) - 1)%nat
            && PyDict.mem q (responses (session w)) = true
            <-> current_question (session w) = length (questions (session w)) - 1
                /\ answer_at (session w) (current_question (session w)) <> None).
  { rewrite (answer_at_lookup _ _ q Hq).
    rewrite andb_true_iff, Nat.eqb_eq. unfold PyDict.mem.
    destruct (PyDict.get q (responses (session w))); split; intros [H1 H2]; split;
      congruence. }
  pose proof (phase_interviewing _ Hp) as (Hn & Hg & Hc & _).
  unfold run. rewrite Hmain.
  destruct ((current_question (session w) =? length (questions (session w)) - 1)%nat
            && PyDict.mem q (responses (session w))) eqn:E.
  - split; [|split].
    + intros _. split; [reflexivity|]. cbn. unfold phase_of. cbn.
      rewrite Hn, Hg. reflexivity.
    + intros H. exfalso. apply H, Hguard. reflexivity.
    + split; [intros _; apply Hguard; reflexivity | reflexivity].
  - split; [|split].
    + intros H. apply Hguard in H. discriminate.
    + intros _. split; [reflexivity | exact Hp].
    + cbn. rewrite Hc. rewrite <- Hguard. reflexivity.
Qed.

Lemma finish_guard_witness :
  main click_finish groq_up all_answered
  = (Stop RerunException,
     with_session (set_interview_complete true (session all_answered)) all_answered)
  /\ main click_finish groq_up at_first_question = (Next tt, at_first_question).
Proof.
  destruct (finish_guard all_answered groq_up "2. What is an index?")
    as (Hyes & _ & _); [vm_compute; reflexivity | vm_compute; reflexivity |].
  destruct (finish_guard at_first_question groq_up "1. What is REST?")
    as (_ & Hno & _); [vm_compute; reflexivity | vm_compute; reflexivity |].
  destruct Hyes as [Hyes _];
    [split; [vm_compute; reflexivity | vm_compute; discriminate]|].
  destruct Hno as [Hno _]; [vm_compute; intros [H _]; discriminate|].
  split; [exact Hyes | exact Hno].
Defined.

(** C4, as stated, fails: at the first of two questions, not yet answered,
    "Next Question" does not move the cursor. *)
Lemma next_without_answer_stays :
  ~ (forall w svc,
        phase_of (session w) = Interviewing ->
        current_question (session w) + 1 < length (questions (session w)) ->
        current_question (session (run click_next svc w))
        = current_question (session w) + 1).
Proof.
  intros H. specialize (H at_first_question groq_up).
  vm_compute in H. specialize (H eq_refl (le_n 2)). discriminate.
Qed.

(** C4, amended: in the interviewing phase the cursor moves one step at a
    time and only away from a question whose text has a response.  With a
    response, "Next Question" moves one forward unless the cursor is on the
    last question, and "Previous Question" moves one back unless it is on
    the first; without a response neither click changes anything. *)
Theorem navigation_needs_answer w svc q :
  phase_of (session w) = Interviewing ->
  questions (session w) !! current_question (session w) = Some q ->
  let s := session w in
  let idx := current_question s in
  (answer_at s idx = None ->
     main click_next svc w = (Next tt, w)
     /\ main click_previous svc w = (Next tt, w))
  /\ (answer_at s idx <> None ->
        session (run click_next svc w)
        = (if (idx <? length (questions s) - 1)%nat
           then set_current_question (idx + 1) s else s)
        /\ session (run click_previous svc w)
           = (if (0 <? idx)%nat then set_current_question (idx - 1) s else s)).
Proof.
  intros Hp Hq s idx. subst s idx.
  unfold run.
  rewrite (navigation_run click_next svc w q Hp Hq); try reflexivity.
  rewrite (navigation_run click_previous svc w q Hp Hq); try reflexivity.
  rewrite (answer_at_lookup _ _ q Hq). unfold PyDict.mem.
  destruct (PyDict.get q (responses (session w))) as [a|].
  - split; [discriminate|]. intros _. rewrite !navigation_eq. cbv zeta.
    cbn [click_next click_previous previous_question next_question
         finish_interview].
    rewrite !andb_false_r, !andb_true_r.
    destruct (current_question (session w) <? length (questions (session w)) - 1)%nat,
      (0 <? current_question (session w))%nat; split; reflexivity.
  - split; [|congruence]. intros _. split; reflexivity.
Qed.

Lemma navigation_needs_answer_witness :
  main click_next groq_up at_first_question = (Next tt, at_first_question)
  /\ session (run click_previous groq_up all_answered)
     = set_current_question 0 (session all_answered).
Proof.
  destruct (navigation_needs_answer at_first_question groq_up "1. What is REST?")
    as [Hnone _]; [vm_compute; reflexivity | vm_compute; reflexivity |].
  destruct (navigation_needs_answer all_answered groq_up "2. What is an index?")
    as [_ Hsome]; [vm_compute; reflexivity | vm_compute; reflexivity |].
  destruct Hnone as [Hnext _]; [vm_compute; reflexivity|].
  destruct Hsome as [_ Hprev]; [vm_compute; discriminate|].
  split; [exact Hnext|].
  vm_compute in Hprev |- *. exact Hprev.
Defined.

(** C5: in the interviewing phase, a recording whose transcription fails
    ends the run in an exception with the session as it was, so no response
    is stored and the phase is still the interviewing one.  The exception is
    the one of the transcription when the recording could be written, and
    the one of [open] in [save_audio] when it could not: then the
    transcription is not reached, whatever it would have answered, and the
    world is as it was.  A run with an empty recording, or with none, stores
    nothing either, whatever the service would have answered. *)
Theorem failed_transcription_records_nothing w svc q :
  phase_of (session w) = Interviewing ->
  questions (session w) !! current_question (session w) = Some q ->
  (forall b bs e,
      transcriptions_create svc (b :: bs) = Raises e ->
      fst (main (record_answer (b :: bs)) svc w)
      = Stop (Uncaught match write_error w (current_question (session w)) with
                       | None => e
                       | Some e' => e'
                       end)
      /\ session (run (record_answer (b :: bs)) svc w) = session w
      /\ phase_of (session (run (record_answer (b :: bs)) svc w)) = Interviewing
      /\ answer_at (session (run (record_answer (b :: bs)) svc w))
                   (current_question (session w))
         = answer_at (session w) (current_question (session w)))
  /\ (forall b bs e,
        write_error w (current_question (session w)) = Some e ->
        main (record_answer (b :: bs)) svc w = (Stop (Uncaught e), w))
  /\ main (record_answer []) svc w = (Next tt, w)
  /\ main idle svc w = (Next tt, w).
Proof.
  intros Hp Hq. split; [|split; [|split]].
  - intros b bs e He. unfold run.
    destruct (write_error w (current_question (session w))) as [e'|] eqn:Hw.
    + rewrite (unwritable_record_run w svc q b bs e' Hp Hq Hw).
      cbn. repeat split. exact Hp.
    + rewrite (record_run w svc q b bs Hp Hq Hw).
      cbv zeta. rewrite He. cbn. repeat split. exact Hp.
  - intros b bs e Hw. apply (unwritable_record_run w svc q b bs e Hp Hq Hw).
  - apply (empty_recording_run svc w q Hp Hq).
  - rewrite (navigation_run idle svc w q Hp Hq); try reflexivity.
    destruct (PyDict.mem q (responses (session w))); [|reflexivity].
    rewrite navigation_eq. cbn. rewrite !andb_false_r. reflexivity.
Qed.

Lemma failed_transcription_records_nothing_witness :
  fst (main (record_answer [x52; x49]) groq_down at_first_question)
  = Stop (Uncaught (ServiceError "503"))
  /\ session (run (record_answer [x52; x49]) groq_down at_first_question)
     = session at_first_question
  /\ main (record_answer [x52; x49]) groq_up slash_name_visit
     = (Stop (Uncaught FileNotFoundError), slash_name_visit)
  /\ main (record_answer []) groq_up at_first_question = (Next tt, at_first_question).
Proof.
  destruct (failed_transcription_records_nothing at_first_question groq_down
              "1. What is REST?") as (Hfail & _ & _ & _);
    [vm_compute; reflexivity | vm_compute; reflexivity |].
  destruct (failed_transcription_records_nothing slash_name_visit groq_up
              "1. What is REST?") as (_ & Hwrite & _ & _);
    [vm_compute; reflexivity | vm_compute; reflexivity |].
  destruct (failed_transcription_records_nothing at_first_question groq_up
              "1. What is REST?") as (_ & _ & Hempty & _);
    [vm_compute; reflexivity | vm_compute; reflexivity |].
  destruct (Hfail x52 [x49] (ServiceError "503")) as (Hexn & Hsame & _);
    [reflexivity|].
  replace (write_error at_first_question (current_question (session at_first_question)))
    with (@None exn) in Hexn by (vm_compute; reflexivity).
  split; [exact Hexn|]. split; [exact Hsame|].
  split; [|exact Hempty].
  apply Hwrite. vm_compute. reflexivity.
Defined.

(** C6, as stated, fails twice over: the numbers the prompt asks for are
    kept, and a reply without a non-blank line gives no question at all. *)
Lemma question_lines_keep_numbers :
  question_lines ("1. What is REST?" +:+ String "010" (String "010"
                  ("2. What is an index?" +:+ String "010" "")))
  = ["1. What is REST?"; "2. What is an index?"]
  /\ ~ (forall out, Forall (fun q => numbered q = false) (question_lines out))
  /\ ~ (forall out, 1 <= length (question_lines out)).
Proof.
  split; [vm_compute; reflexivity|]. split; intros H.
  - specialize (H "1. What is REST?"). vm_compute in H.
    inversion H as [|q qs Hq _]. discriminate.
  - specialize (H ""). vm_compute in H. lia.
Qed.

(** C6, amended: the questions of a started interview are the lines of the
    question chain's reply, in their order, each stripped of surrounding
    white space, the blank ones left out.  So every question is non-empty,
    has no white space at either end and no line break inside.  Numbers in
    front of the questions stay, and there may be no question at all. *)
Theorem generated_questions_are_stripped_lines w svc title desc out :
  PyStr.truthy (candidate_name (session w)) = true ->
  greeting_done (session w) = true ->
  PyStr.strip title <> "" ->
  PyStr.strip desc <> "" ->
  run_question svc title desc = Returns out ->
  let qs := questions (session (run (click_start title desc) svc w)) in
  qs = map PyStr.strip
         (List.filter (fun line => PyStr.truthy (PyStr.strip line))
                      (PyStr.splitlines out))
  /\ Forall (fun q => q <> "" /\ PyStr.strip q = q
                      /\ Forall (fun c => PyStr.is_linebreak c = false)
                                (list_ascii_of_string q)) qs.
Proof.
  intros Hn Hg Ht Hd Hout qs.
  assert (Hqs : qs = question_lines out).
  { unfold qs, run.
    rewrite (start_run_accepted w svc title desc out Hn Hg Ht Hd Hout).
    reflexivity. }
  rewrite Hqs. split; [reflexivity | apply question_lines_stripped].
Qed.

Lemma generated_questions_are_stripped_lines_witness :
  questions (session (run (click_start "Data Engineer" "Spark") groq_up all_answered))
  = map PyStr.strip
      (List.filter (fun line => PyStr.truthy (PyStr.strip line))
         (PyStr.splitlines
            ("1. What is REST?" +:+ String "010" (String "010"
             ("2. What is an index?" +:+ String "010" ""))))).
Proof.
  destruct (generated_questions_are_stripped_lines all_answered groq_up
              "Data Engineer" "Spark"
              ("1. What is REST?" +:+ String "010" (String "010"
               ("2. What is an index?" +:+ String "010" ""))))
    as [H _];
    [vm_compute; reflexivity | vm_compute; reflexivity | vm_compute; discriminate
    | vm_compute; discriminate | reflexivity |].
  exact H.
Defined.

(** C7: in the interviewing phase two recordings for the question under the
    cursor, each written and transcribed, leave one response for it, the one
    of the second recording: the same audio path, the second transcription,
    the second file content.  The session is the one the second recording
    alone would have left.  It is enough that the first recording can be
    written: then so can the second. *)
Theorem rerecording_overwrites w svc1 svc2 q b1 bs1 b2 bs2 t1 t2 :
  phase_of (session w) = Interviewing ->
  questions (session w) !! current_question (session w) = Some q ->
  NoDup (PyDict.keys (responses (session w))) ->
  write_error w (current_question (session w)) = None ->
  transcriptions_create svc1 (b1 :: bs1) = Returns t1 ->
  transcriptions_create svc2 (b2 :: bs2) = Returns t2 ->
  let idx := current_question (session w) in
  let path := audio_path_of (candidate_name (session w)) idx in
  let w1 := run (record_answer (b1 :: bs1)) svc1 w in
  let w2 := run (record_answer (b2 :: bs2)) svc2 w1 in
  answer_at (session w2) idx = Some {| audio := path; text := PyStr.strip t2 |}
  /\ PyDict.count q (responses (session w2)) = 1
  /\ length (responses (session w2)) = length (responses (session w1))
  /\ session w2 = session (run (record_answer (b2 :: bs2)) svc2 w)
  /\ files w2 !! path = Some (b2 :: bs2).
Proof.
  intros Hp Hq Hnd Hw H1 H2 idx path w1 w2.
  assert (E1 : w1 =
            {| session :=
                 set_responses
                   (PyDict.set q {| audio := path; text := PyStr.strip t1 |}
                      (responses (session w))) (session w);
               files := <[path := b1 :: bs1]> (files w);
               open_wb := open_wb w;
               results_file := results_file w |}).
  { unfold w1, run. rewrite (record_run w svc1 q b1 bs1 Hp Hq Hw). cbv zeta.
    rewrite H1. reflexivity. }
  assert (E2 : w2 =
            {| session :=
                 set_responses
                   (PyDict.set q {| audio := path; text := PyStr.strip t2 |}
                      (responses (session w1))) (session w1);
               files := <[path := b2 :: bs2]> (files w1);
               open_wb := open_wb w1;
               results_file := results_file w1 |}).
  { unfold w2, run. rewrite (record_run w1 svc2 q b2 bs2).
    - cbv zeta. rewrite H2. rewrite E1. reflexivity.
    - rewrite E1. exact Hp.
    - rewrite E1. exact Hq.
    - rewrite E1. exact Hw. }
  assert (E3 : run (record_answer (b2 :: bs2)) svc2 w =
            {| session :=
                 set_responses
                   (PyDict.set q {| audio := path; text := PyStr.strip t2 |}
                      (responses (session w))) (session w);
               files := <[path := b2 :: bs2]> (files w);
               open_wb := open_wb w;
               results_file := results_file w |}).
  { unfold run. rewrite (record_run w svc2 q b2 bs2 Hp Hq Hw). cbv zeta.
    rewrite H2. reflexivity. }
  rewrite E3, E2, E1. clear E1 E2 E3. cbn [session files responses set_responses].
  rewrite PyDictFacts.set_set.
  split; [|split; [|split; [|split]]].
  - unfold answer_at, idx. cbn [questions responses set_responses].
    rewrite Hq. cbn. apply PyDictFacts.get_set_eq.
  - apply PyDictFacts.count_present.
    + apply PyDictFacts.NoDup_keys_set, Hnd.
    + apply PyDictFacts.In_keys_set. left. reflexivity.
  - rewrite !PyDictFacts.length_set.
    destruct (PyDict.mem q (responses (session w))); reflexivity.
  - reflexivity.
  - apply lookup_insert_eq.
Qed.

Lemma rerecording_overwrites_witness :
  answer_at
    (session (run (record_answer [x52; x49]) groq_up at_first_question)) 0
  = Some {| audio := "audios/Ava_Q1.wav"; text := "I would add an index." |}
  /\ answer_at
       (session (run (record_answer [x46]) groq_repeating
                     (run (record_answer [x52; x49]) groq_up at_first_question))) 0
     = Some {| audio := "audios/Ava_Q1.wav"; text := "It depends." |}
  /\ PyDict.count "1. What is REST?"
       (responses
          (session (run (record_answer [x46]) groq_repeating
                        (run (record_answer [x52; x49]) groq_up at_first_question))))
     = 1
  /\ files (run (record_answer [x46]) groq_repeating
                (run (record_answer [x52; x49]) groq_up at_first_question))
       !! "audios/Ava_Q1.wav" = Some [x46].
Proof.
  destruct (rerecording_overwrites at_first_question groq_up groq_repeating
              "1. What is REST?" x52 [x49] x46 [] " I would add an index. "
              "It depends.") as (H1 & H2 & _ & _ & H3);
    [vm_compute; reflexivity | vm_compute; reflexivity | constructor
    | vm_compute; reflexivity | reflexivity | reflexivity |].
  split; [vm_compute; reflexivity|].
  split; [|split; [exact H2|]].
  - vm_compute in H1 |- *. exact H1.
  - replace (audio_path_of (candidate_name (session at_first_question))
               (current_question (session at_first_question)))
      with "audios/Ava_Q1.wav" in H3 by (vm_compute; reflexivity).
    exact H3.
Defined.

(** C8, as stated, fails: a job title of one space is not empty, yet
    "Start Interview" then leaves the questions and the responses of the
    running interview in place. *)
Lemma blank_title_does_not_restart :
  ~ (forall w svc title desc out,
        PyStr.truthy (candidate_name (session w)) = true ->
        greeting_done (session w) = true ->
        title <> "" -> desc <> "" -> question_lines out <> [] ->
        run_question svc title desc = Returns out ->
        let s' := session (run (click_start title desc) svc w) in
        questions s' = question_lines out
        /\ current_question s' = 0
        /\ responses s' = []
        /\ candidate_name s' = candidate_name (session w)).
Proof.
  intros H.
  specialize (H all_answered groq_up " " "REST APIs"
                ("1. What is REST?" +:+ String "010" (String "010"
                 ("2. What is an index?" +:+ String "010" "")))).
  destruct H as (_ & _ & Hresp & _); try (vm_compute; congruence).
  vm_compute in Hresp. discriminate.
Qed.

(** C8, amended: once the candidate is greeted, "Start Interview" with a job
    title and a description that are not blank (not empty once stripped of
    white space) replaces the questions by the lines the question chain
    returned, puts the cursor on 0, empties the responses and clears
    [interview_complete]; the candidate's name and the greeting stay, and so
    do the files.  This holds in whatever phase the click arrives and for an
    empty list of questions too. *)
Theorem start_interview_restarts w svc title desc out :
  PyStr.truthy (candidate_name (session w)) = true ->
  greeting_done (session w) = true ->
  PyStr.strip title <> "" ->
  PyStr.strip desc <> "" ->
  run_question svc title desc = Returns out ->
  main (click_start title desc) svc w
  = (Stop RerunException,
     with_session
       (restart (question_lines out)
                (set_description desc (set_role title (session w)))) w)
  /\ (let w' := run (click_start title desc) svc w in
      questions (session w') = question_lines out
      /\ current_question (session w') = 0
      /\ responses (session w') = []
      /\ interview_complete (session w') = false
      /\ candidate_name (session w') = candidate_name (session w)
      /\ greeting_text (session w') = greeting_text (session w)
      /\ role (session w') = title
      /\ description (session w') = desc
      /\ files w' = files w
      /\ results_file w' = results_file w).
Proof.
  intros Hn Hg Ht Hd Hout.
  unfold run. rewrite (start_run_accepted w svc title desc out Hn Hg Ht Hd Hout).
  cbn. repeat split.
Qed.

Lemma start_interview_restarts_witness :
  let w' := run (click_start "Data Engineer" "Spark") groq_repeating all_answered in
  questions (session w') = ["Why this role?"; "Why this role?"]
  /\ current_question (session w') = 0
  /\ responses (session w') = []
  /\ candidate_name (session w') = "Ava".
Proof.
  destruct (start_interview_restarts all_answered groq_repeating
              "Data Engineer" "Spark"
              ("Why this role?" +:+ String "010" ("Why this role?" +:+ String "010" "")))
    as (_ & Hq & Hc & Hr & _ & Hn & _);
    [vm_compute; reflexivity | vm_compute; reflexivity | vm_compute; discriminate
    | vm_compute; discriminate | reflexivity |].
  cbv zeta. split; [|split; [|split]].
  - vm_compute in Hq |- *. exact Hq.
  - exact Hc.
  - exact Hr.
  - vm_compute in Hn |- *. exact Hn.
Defined.

(** C9: responses are stored under the text of the question.  When the
    questions at two positions have the same text, a recording made at one
    of them, written and transcribed, is the response found at the other as
    well, whatever was found there before, and the session holds fewer
    responses than questions. *)
Theorem equal_questions_share_answer w svc q i j b bs t :
  phase_of (session w) = Interviewing ->
  session_ok (session w) ->
  current_question (session w) = i ->
  i <> j ->
  questions (session w) !! i = Some q ->
  questions (session w) !! j = Some q ->
  write_error w i = None ->
  transcriptions_create svc (b :: bs) = Returns t ->
  let w' := run (record_answer (b :: bs)) svc w in
  let answer := {| audio := audio_path_of (candidate_name (session w)) i;
                   text := PyStr.strip t |} in
  answer_at (session w') i = Some answer
  /\ answer_at (session w') j = Some answer
  /\ length (responses (session w')) < length (questions (session w')).
Proof.
  intros Hp Hok Hcur Hij Hi Hj Hw Ht w' answer. subst w' answer i.
  unfold run. rewrite (record_run w svc q b bs Hp Hi Hw). cbv zeta. rewrite Ht.
  cbn [snd session].
  assert (Hget : forall k, questions (session w) !! k = Some q ->
            answer_at
              (set_responses
                 (PyDict.set q
                    {| audio := audio_path_of (candidate_name (session w))
                                  (current_question (session w));
                       text := PyStr.strip t |} (responses (session w)))
                 (session w)) k
            = Some {| audio := audio_path_of (candidate_name (session w))
                                 (current_question (session w));
                      text := PyStr.strip t |}).
  { intros k Hk. unfold answer_at. cbn [questions responses set_responses].
    rewrite Hk. cbn. apply PyDictFacts.get_set_eq. }
  split; [apply Hget, Hi|]. split; [apply Hget, Hj|].
  cbn [questions responses set_responses].
  destruct Hok as (Hnd & Hin & _).
  rewrite <- (length_map fst).
  apply (fewer_keys_than_repeated _ _ (current_question (session w)) j q);
    [|  | exact Hij | exact Hi | exact Hj].
  - apply (PyDictFacts.NoDup_keys_set q _ _ Hnd).
  - intros k Hk. apply PyDictFacts.In_keys_set in Hk as [->|Hk]; [|auto].
    apply list_elem_of_In. eapply list_elem_of_lookup_2, Hi.
Qed.

Lemma equal_questions_share_answer_witness :
  answer_at (session (run (record_answer [x52]) groq_repeating at_repeated_question)) 1
  = Some {| audio := "audios/Bo_Q1.wav"; text := "It depends." |}
  /\ length (responses
               (session (run (record_answer [x52]) groq_repeating at_repeated_question)))
     < length (questions
                 (session (run (record_answer [x52]) groq_repeating
                               at_repeated_question))).
Proof.
  destruct (equal_questions_share_answer at_repeated_question groq_repeating
              "Why this role?" 0 1 x52 [] "It depends.") as (_ & H1 & H2).
  - vm_compute. reflexivity.
  - apply interact_session_ok, session_ok_default.
  - vm_compute. reflexivity.
  - discriminate.
  - vm_compute. reflexivity.
  - vm_compute. reflexivity.
  - vm_compute. reflexivity.
  - reflexivity.
  - split; [|exact H2].
    vm_compute in H1 |- *. exact H1.
Defined.

(** C10, at the failing input: a candidate who gave the name [/tmp/ava]
    records an answer to the first question while the transcription service
    is down.  No response is stored, and the recording is on disk, but at
    [/tmp/ava_Q1.wav]: nothing is written to
    [audios//tmp/ava_Q1.wav]. *)
Theorem absolute_name_leaves_audios :
  let w' := run (record_answer [x52; x49]) groq_down absolute_name_visit in
  candidate_name (session absolute_name_visit) = "/tmp/ava"
  /\ phase_of (session absolute_name_visit) = Interviewing
  /\ fst (main (record_answer [x52; x49]) groq_down absolute_name_visit)
     = Stop (Uncaught (ServiceError "503"))
  /\ responses (session w') = []
  /\ files w' !! "/tmp/ava_Q1.wav" = Some [x52; x49]
  /\ files w' !! "audios//tmp/ava_Q1.wav" = None
  /\ files w' !! ("audios/" +:+ PyStr.replace " " "_" "/tmp/ava" +:+ "_Q"
                  +:+ PyStr.of_nat (0 + 1) +:+ ".wav") = None.
Proof. vm_compute. repeat split. Qed.


(** * Further properties of the script *)

(** ** The name form and the greeting *)

Lemma navigation_keeps_identity ui idx w :
  let s' := session (snd (navigation ui idx w)) in
  candidate_name s' = candidate_name (session w)
  /\ greeting_done s' = greeting_done (session w)
  /\ greeting_text s' = greeting_text (session w).
Proof.
  rewrite navigation_eq. cbv zeta. repeat script_case; cbn; auto.
Qed.

Lemma interview_section_keeps_identity ui svc w :
  let s' := session (snd (interview_section ui svc w)) in
  candidate_name s' = candidate_name (session w)
  /\ greeting_done s' = greeting_done (session w)
  /\ greeting_text s' = greeting_text (session w).
Proof.
  rewrite interview_section_eq. cbv zeta.
  repeat (script_case; try (cbn; solve [auto]));
    match goal with
    | |- context [navigation ui ?i ?w1] =>
        destruct (navigation_keeps_identity ui i w1) as (-> & -> & ->)
    end; cbn; auto.
Qed.

Lemma role_section_keeps_identity ui svc w :
  let s' := session (snd (role_section ui svc w)) in
  candidate_name s' = candidate_name (session w)
  /\ greeting_done s' = greeting_done (session w)
  /\ greeting_text s' = greeting_text (session w).
Proof.
  rewrite role_section_eq. cbv zeta. repeat script_case; cbn; auto.
Qed.

Lemma evaluation_section_keeps_session svc w :
  session (snd (evaluation_section svc w)) = session w.
Proof.
  rewrite evaluation_section_eq. cbv zeta. repeat script_case; reflexivity.
Qed.

(** A run past the greeting keeps the name and the greeting. *)
Lemma greeted_run_keeps_identity ui svc w :
  PyStr.truthy (candidate_name (session w)) = true ->
  greeting_done (session w) = true ->
  let s' := session (run ui svc w) in
  candidate_name s' = candidate_name (session w)
  /\ greeting_done s' = true
  /\ greeting_text s' = greeting_text (session w).
Proof.
  intros Hn Hg. cbv zeta. unfold run. rewrite main_eq.
  unfold before_evaluation. cbv [mbind script_bind].
  rewrite name_section_eq, Hn, greeting_section_eq, Hg.
  pose proof (role_section_keeps_identity ui svc w) as Hrole. cbv zeta in Hrole.
  destruct (role_section ui svc w) as [[[]|c] w1]; cbn [snd] in *.
  2:{ destruct Hrole as (R1 & R2 & R3). rewrite R1, R2, R3. auto. }
  pose proof (interview_section_keeps_identity ui svc w1) as Hint.
  cbv zeta in Hint.
  destruct (interview_section ui svc w1) as [[[]|c] w2]; cbn [snd] in *.
  - rewrite evaluation_section_keeps_session.
    destruct Hrole as (R1 & R2 & R3), Hint as (I1 & I2 & I3).
    rewrite I1, I2, I3, R1, R2, R3. auto.
  - destruct Hrole as (R1 & R2 & R3), Hint as (I1 & I2 & I3).
    rewrite I1, I2, I3, R1, R2, R3. auto.
Qed.

(** X1: while no name is stored a run shows the name form and nothing else:
    it stores the stripped name and reruns when "Submit Name" is pressed and
    the name is not blank, and otherwise returns with the world as it was; no
    service is called and no file is written.  A name that gets stored has no
    white space around it. *)
Theorem name_form_run ui svc w :
  candidate_name (session w) = "" ->
  let name := PyStr.strip (enter_your_name ui) in
  main ui svc w
  = (if submit_name ui && PyStr.truthy name
     then (Stop RerunException, with_session (set_candidate_name name (session w)) w)
     else (Stop Return, w))
  /\ (candidate_name (session (run ui svc w)) <> "" ->
      submit_name ui = true
      /\ candidate_name (session (run ui svc w)) = name
      /\ PyStr.strip (candidate_name (session (run ui svc w)))
         = candidate_name (session (run ui svc w))).
Proof.
  intros Hn name.
  assert (Hmain : main ui svc w
            = if submit_name ui && PyStr.truthy name
              then (Stop RerunException,
                    with_session (set_candidate_name name (session w)) w)
              else (Stop Return, w)).
  { rewrite main_by_phase. unfold phase_of. rewrite Hn. cbn [PyStr.truthy negb].
    rewrite name_section_eq, Hn. reflexivity. }
  split; [exact Hmain|]. unfold run. rewrite Hmain.
  destruct (submit_name ui); cbn [andb].
  - destruct (PyStr.truthy name); cbn.
    + intros _. repeat split. apply PyStrFacts.strip_idem.
    + congruence.
  - cbn. congruence.
Qed.

Lemma name_form_run_witness :
  main (enter_name " Ava ") groq_up fresh_world
  = (Stop RerunException,
     with_session (set_candidate_name "Ava" (session fresh_world)) fresh_world).
Proof.
  destruct (name_form_run (enter_name " Ava ") groq_up fresh_world) as [H _];
    [reflexivity|].
  vm_compute in H |- *. exact H.
Defined.

(** X2: once a name is stored no run changes it, whatever the widgets and the
    services do. *)
Theorem candidate_name_is_kept trace w :
  candidate_name (session w) <> "" ->
  candidate_name (session (interact trace w)) = candidate_name (session w).
Proof.
  revert w. induction trace as [|[ui svc] trace IH]; intros w Hn; [reflexivity|].
  cbn [interact fold_left fst snd]. fold (interact trace (run ui svc w)).
  assert (Hrun : candidate_name (session (run ui svc w)) = candidate_name (session w)).
  { apply PyStrFacts.truthy_true in Hn.
    destruct (greeting_done (session w)) eqn:Hg.
    - apply (greeted_run_keeps_identity ui svc w Hn Hg).
    - unfold run. rewrite main_by_phase. unfold phase_of. rewrite Hn, Hg.
      cbn [negb]. rewrite greeting_section_eq, Hg.
      destruct (run_greeting svc _); reflexivity. }
  rewrite IH; [exact Hrun | rewrite Hrun; exact Hn].
Qed.

Lemma candidate_name_is_kept_witness :
  candidate_name (session (interact ava_edits_title named_only))
  = candidate_name (session named_only).
Proof.
  apply (candidate_name_is_kept ava_edits_title named_only).
  vm_compute. discriminate.
Defined.

(** X3: while a name is stored and no greeting is, every run asks the
    greeting chain with that name, whatever the widgets hold: a reply is
    stored with [greeting_done] and the run reruns; an exception ends the
    run with the world as it was, so that the next run asks again. *)
Theorem greeting_run ui svc w :
  candidate_name (session w) <> "" ->
  greeting_done (session w) = false ->
  main ui svc w
  = match run_greeting svc (candidate_name (session w)) with
    | Returns greeting =>
        (Stop RerunException,
         with_session (set_greeting_done true
                         (set_greeting_text greeting (session w))) w)
    | Raises e => (Stop (Uncaught e), w)
    end.
Proof.
  intros Hn Hg. apply PyStrFacts.truthy_true in Hn.
  rewrite main_by_phase. unfold phase_of. rewrite Hn, Hg. cbn [negb].
  rewrite greeting_section_eq, Hg. reflexivity.
Qed.

Lemma greeting_run_witness :
  main click_finish groq_down named_only
  = (Stop (Uncaught (ServiceError "503")), named_only).
Proof.
  pose proof (greeting_run click_finish groq_down named_only) as H.
  vm_compute in H |- *. apply H; [discriminate | reflexivity].
Defined.

(** X4: once the candidate is greeted the greeting is never asked for again:
    [greeting_done] stays set and the text stays the same through every run. *)
Theorem greeting_is_kept trace w :
  candidate_name (session w) <> "" ->
  greeting_done (session w) = true ->
  greeting_done (session (interact trace w)) = true
  /\ greeting_text (session (interact trace w)) = greeting_text (session w).
Proof.
  revert w. induction trace as [|[ui svc] trace IH]; intros w Hn Hg; [auto|].
  cbn [interact fold_left fst snd]. fold (interact trace (run ui svc w)).
  pose proof Hn as Hn'. apply PyStrFacts.truthy_true in Hn'.
  destruct (greeted_run_keeps_identity ui svc w Hn' Hg) as (Hname & Hdone & Htext).
  destruct (IH (run ui svc w)) as [H1 H2]; [rewrite Hname; exact Hn | exact Hdone |].
  split; [exact H1 | rewrite H2; exact Htext].
Qed.

Lemma greeting_is_kept_witness :
  greeting_done (session (interact ava_edits_title at_first_question)) = true
  /\ greeting_text (session (interact ava_edits_title at_first_question))
     = greeting_text (session at_first_question).
Proof.
  apply (greeting_is_kept ava_edits_title at_first_question);
    [vm_compute; discriminate | vm_compute; reflexivity].
Defined.

(** ** Exceptions *)






(** ** The completed phase *)

Lemma phase_completed s :
  phase_of s = Completed ->
  PyStr.truthy (candidate_name s) = true /\ greeting_done s = true
  /\ interview_complete s = true.
Proof.
  unfold phase_of.
  destruct (PyStr.truthy (candidate_name s)), (greeting_done s),
    (interview_complete s), (questions s); cbn; try discriminate; auto.
Qed.

(** A run in the completed phase that does not start an interview. *)
Lemma completed_run ui svc w :
  phase_of (session w) = Completed ->
  start_accepted ui (session w) = false ->
  main ui svc w = evaluation_section svc (with_session (edit_role ui (session w)) w).
Proof.
  intros Hp Hstart. rewrite main_by_phase, Hp. cbv [mbind script_bind].
  rewrite role_section_eq. cbv zeta. unfold start_accepted in Hstart.
  rewrite Hstart. reflexivity.
Qed.

(** X6: once the interview is complete a run that starts no interview
    changes nothing but the two fields of the role form: a recording and
    the navigation buttons are without effect, and no file is written. *)
Theorem completed_interview_is_frozen ui svc w :
  phase_of (session w) = Completed ->
  start_accepted ui (session w) = false ->
  session (run ui svc w) = edit_role ui (session w)
  /\ files (run ui svc w) = files w
  /\ phase_of (session (run ui svc w)) = Completed.
Proof.
  intros Hp Hstart. unfold run. rewrite (completed_run ui svc w Hp Hstart).
  rewrite evaluation_section_eq. cbv zeta.
  repeat script_case; cbn; repeat split; exact Hp.
Qed.

Lemma completed_interview_is_frozen_witness :
  session (run (record_answer [x52]) groq_up evaluated) = session evaluated
  /\ files (run (record_answer [x52]) groq_up evaluated) = files evaluated.
Proof.
  destruct (completed_interview_is_frozen (record_answer [x52]) groq_up evaluated)
    as (H1 & H2 & _); [vm_compute; reflexivity | vm_compute; reflexivity |].
  split; [|exact H2]. vm_compute in H1 |- *. exact H1.
Defined.

(** X7: when the evaluation chain raises, nothing is appended to the results
    file: the run ends in that exception and the interview stays complete,
    so that the next run evaluates again. *)
Theorem failed_evaluation_saves_nothing ui svc w e :
  phase_of (session w) = Completed ->
  start_accepted ui (session w) = false ->
  run_evaluation svc (role (edit_role ui (session w)))
    (PyStr.join (String "010" (String "010" "")) (qa_pairs (responses (session w))))
  = Raises e ->
  main ui svc w = (Stop (Uncaught e), with_session (edit_role ui (session w)) w).
Proof.
  intros Hp Hstart He. rewrite (completed_run ui svc w Hp Hstart).
  rewrite evaluation_section_eq. cbv zeta.
  apply phase_completed in Hp as (_ & _ & Hc).
  cbn [session with_session]. change (interview_complete (edit_role ui (session w)))
    with (interview_complete (session w)).
  change (responses (edit_role ui (session w))) with (responses (session w)).
  rewrite Hc, He. reflexivity.
Qed.

Lemma failed_evaluation_saves_nothing_witness :
  main idle groq_down evaluated
  = (Stop (Uncaught (ServiceError "503")),
     with_session (edit_role idle (session evaluated)) evaluated).
Proof.
  apply (failed_evaluation_saves_nothing idle groq_down evaluated
           (ServiceError "503"));
    [vm_compute; reflexivity | vm_compute; reflexivity | reflexivity].
Defined.

(** ** The results file, once it exists *)

Lemma rows_of_six_fields sv : Forall (fun row => length row = 6) (rows_of sv).
Proof.
  unfold rows_of. apply List.Forall_map. apply List.Forall_forall.
  intros item _. reflexivity.
Qed.

Lemma concat_rows_six_fields svs :
  Forall (fun row => length row = 6) (concat (map rows_of svs)).
Proof.
  induction svs as [|sv svs IH]; cbn; [constructor|].
  apply Forall_app. split; [apply rows_of_six_fields | exact IH].
Qed.

(** X8: a results file that exists is only appended to: after any visit it
    holds what it held, followed by the records of the saves, of six fields
    each, and no header is written, not even into an empty file. *)
Theorem existing_results_file_only_grows trace w old :
  results_file w = Some old ->
  results_file (interact trace w) = Some (old ++ concat (map rows_of (saves trace w)))
  /\ Forall (fun row => length row = 6) (concat (map rows_of (saves trace w)))
  /\ length old <= sink_rows (interact trace w).
Proof.
  intros Hold.
  assert (Hfile : results_file (interact trace w)
                  = Some (old ++ concat (map rows_of (saves trace w)))).
  { rewrite interact_results_file, Hold. apply append_saves_some. }
  split; [exact Hfile|]. split; [apply concat_rows_six_fields|].
  unfold sink_rows. rewrite Hfile, length_app. lia.
Qed.

Lemma existing_results_file_only_grows_witness :
  results_file (interact ava_finishes with_empty_results)
  = Some ([] ++ concat (map rows_of (saves ava_finishes with_empty_results))).
Proof.
  destruct (existing_results_file_only_grows ava_finishes with_empty_results [])
    as [H _]; [reflexivity | exact H].
Defined.

(** ** Paths of the recordings *)

Lemma append_inv_head s a b : s +:+ a = s +:+ b -> a = b.
Proof. induction s as [|c s IH]; cbn; [auto|]. intros [= H]. auto. Qed.

Lemma length_append a b : String.length (a +:+ b) = String.length a + String.length b.
Proof. induction a as [|c a IH]; simpl; [reflexivity | f_equal; exact IH]. Qed.

Lemma append_inv_tail t a b : a +:+ t = b +:+ t -> a = b.
Proof.
  revert b. induction a as [|c a IH]; intros [|d b] H.
  - reflexivity.
  - apply (f_equal String.length) in H. rewrite !length_append in H. simpl in H. lia.
  - apply (f_equal String.length) in H. rewrite !length_append in H. simpl in H. lia.
  - cbn in H. injection H as -> H. f_equal. apply IH, H.
Qed.

Lemma of_nat_inj n m : PyStr.of_nat n = PyStr.of_nat m -> n = m.
Proof.
  unfold PyStr.of_nat. intros H.
  apply Unsigned.to_uint_inj.
  apply (f_equal NilEmpty.uint_of_string) in H.
  rewrite !NilEmpty.usu in H. congruence.
Qed.

Lemma audio_filename_absolute name idx :
  PyStr.startswith "/" (audio_filename name idx) = PyStr.startswith "/" name.
Proof.
  unfold audio_filename. destruct name as [|c name]; [reflexivity|]. cbn.
  destruct (Ascii.eqb c " ") eqn:E; [|reflexivity].
  apply Ascii.eqb_eq in E. subst c. reflexivity.
Qed.

Lemma audio_path_of_inj name i j :
  audio_path_of name i = audio_path_of name j -> i = j.
Proof.
  unfold audio_path_of, os_path_join. rewrite !audio_filename_absolute.
  intros H.
  assert (Hf : audio_filename name i = audio_filename name j).
  { destruct (PyStr.startswith "/" name); [exact H|].
    apply append_inv_head in H. apply append_inv_head in H. exact H. }
  unfold audio_filename in Hf.
  apply append_inv_head in Hf. apply append_inv_head in Hf.
  apply append_inv_tail in Hf. apply of_nat_inj in Hf. lia.
Qed.

Lemma replace_replace s :
  PyStr.replace " " "_" (PyStr.replace " " "_" s) = PyStr.replace " " "_" s.
Proof.
  unfold PyStr.replace. rewrite list_ascii_of_string_of_list_ascii.
  f_equal. rewrite List.map_map. apply List.map_ext. intros c.
  destruct (Ascii.eqb c " ") eqn:E; [reflexivity|]. rewrite E. reflexivity.
Qed.

Lemma startswith_replace s :
  PyStr.startswith "/" (PyStr.replace " " "_" s) = PyStr.startswith "/" s.
Proof.
  destruct s as [|c s]; [reflexivity|]. cbn.
  destruct (Ascii.eqb c " ") eqn:E; [|reflexivity].
  apply Ascii.eqb_eq in E. subst c. reflexivity.
Qed.

(** X9: a name with underscores for its spaces gets the same recording
    paths: candidates whose names differ in that way only write the same
    files. *)
Theorem underscored_name_shares_recordings name idx :
  audio_path_of (PyStr.replace " " "_" name) idx = audio_path_of name idx.
Proof.
  unfold audio_path_of, audio_filename. rewrite replace_replace. reflexivity.
Qed.

(** ** Files *)

Lemma navigation_keeps_files ui idx w : files (snd (navigation ui idx w)) = files w.
Proof. rewrite navigation_eq. cbv zeta. repeat script_case; reflexivity. Qed.

Lemma interview_section_files ui svc w :
  files (snd (interview_section ui svc w)) = files w
  \/ (recorded ui = true
      /\ files (snd (interview_section ui svc w))
         = <[audio_path_of (candidate_name (session w)) (current_question (session w))
             := default [] (audio_recorder ui)]> (files w)).
Proof.
  rewrite interview_section_eq. cbv zeta. unfold recorded.
  repeat (script_case; try (left; reflexivity));
    try (left; apply navigation_keeps_files);
    right; (split; [reflexivity|]);
    try rewrite navigation_keeps_files; reflexivity.
Qed.

(** A run leaves the files alone or writes the recording of the current
    question. *)
Lemma run_files_cases ui svc w :
  files (run ui svc w) = files w
  \/ (recorded ui = true
      /\ phase_of (session w) = Interviewing
      /\ files (run ui svc w)
         = <[audio_path_of (candidate_name (session w)) (current_question (session w))
             := default [] (audio_recorder ui)]> (files w)).
Proof.
  unfold run. rewrite main_by_phase.
  destruct (phase_of (session w)) eqn:Hp.
  - left. rewrite name_section_eq. repeat script_case; reflexivity.
  - left. rewrite greeting_section_eq. repeat script_case; reflexivity.
  - left. rewrite role_section_eq. cbv zeta. repeat script_case; reflexivity.
  - cbv [mbind script_bind]. rewrite role_section_eq. cbv zeta.
    destruct (start_interview ui && _ && _).
    { left. destruct (run_question svc _ _); reflexivity. }
    destruct (interview_section_files ui svc
                (with_session (edit_role ui (session w)) w)) as [H|(Hr & H)].
    + left. destruct (interview_section ui svc _) as [[[]|c] w1]; exact H.
    + right. split; [exact Hr|]. split; [reflexivity|].
      destruct (interview_section ui svc _) as [[[]|c] w1]; exact H.
  - left. cbv [mbind script_bind]. rewrite role_section_eq. cbv zeta.
    destruct (start_interview ui && _ && _).
    { destruct (run_question svc _ _); reflexivity. }
    rewrite evaluation_section_eq. cbv zeta. repeat script_case; reflexivity.
Qed.

(** X10: a run writes no recording but that of the question under the
    cursor: the recordings of the candidate's other questions have other
    paths and keep their content, and a run without a recording, or outside
    the interviewing phase, writes no recording at all.  The results file is
    left as it is by every run that does not begin with the interview
    complete. *)
Theorem recordings_do_not_clash ui svc w :
  (forall idx,
      idx <> current_question (session w) ->
      audio_path_of (candidate_name (session w)) idx
      <> audio_path_of (candidate_name (session w)) (current_question (session w))
      /\ files (run ui svc w) !! audio_path_of (candidate_name (session w)) idx
         = files w !! audio_path_of (candidate_name (session w)) idx)
  /\ (recorded ui = false \/ phase_of (session w) <> Interviewing ->
      files (run ui svc w) = files w)
  /\ (phase_of (session w) <> Completed ->
      results_file (run ui svc w) = results_file w).
Proof.
  assert (Hother : forall p,
            p <> audio_path_of (candidate_name (session w))
                   (current_question (session w)) ->
            files (run ui svc w) !! p = files w !! p).
  { intros p Hp. destruct (run_files_cases ui svc w) as [->|(_ & _ & ->)];
      [reflexivity|]. apply lookup_insert_ne. congruence. }
  split; [|split].
  - intros idx Hidx.
    assert (Hpath : audio_path_of (candidate_name (session w)) idx
                    <> audio_path_of (candidate_name (session w))
                         (current_question (session w))).
    { intros H. apply Hidx. apply (audio_path_of_inj _ _ _ H). }
    split; [exact Hpath | apply Hother, Hpath].
  - intros Hno. destruct (run_files_cases ui svc w) as [H|(Hr & Hp & _)];
      [exact H|]. destruct Hno as [Hno|Hno]; congruence.
  - intros Hp. rewrite run_results_file.
    destruct (saved_by ui svc w) as [sv|] eqn:Hsv; [|reflexivity].
    exfalso. apply Hp. apply (saved_by_completed ui svc w sv Hsv).
Qed.

Lemma recordings_do_not_clash_witness :
  files (run (record_answer [x46; x46]) groq_up all_answered) !! "audios/Ava_Q1.wav"
  = files all_answered !! "audios/Ava_Q1.wav"
  /\ results_file (run (record_answer [x46; x46]) groq_up all_answered)
     = results_file all_answered.
Proof.
  destruct (recordings_do_not_clash (record_answer [x46; x46]) groq_up all_answered)
    as (Hidx & _ & Hres).
  destruct (Hidx 0) as [_ H]; [vm_compute; discriminate|].
  split; [|apply Hres; vm_compute; discriminate].
  replace (audio_path_of (candidate_name (session all_answered)) 0)
    with "audios/Ava_Q1.wav" in H by (vm_compute; reflexivity).
  exact H.
Defined.

(** ** A start that is turned down *)

(** X11: a click on "Start Interview" that the guard turns down (a blank job
    title or description) does what the same run without the click does. *)
Theorem rejected_start_is_no_click ui svc w :
  start_accepted ui (session w) = false ->
  main ui svc w = main (without_start ui) svc w.
Proof.
  intros Hstart. rewrite !main_eq. unfold before_evaluation.
  cbv [mbind script_bind]. rewrite !name_section_eq.
  change (submit_name (without_start ui)) with (submit_name ui).
  change (enter_your_name (without_start ui)) with (enter_your_name ui).
  destruct (PyStr.truthy (candidate_name (session w)));
    [|destruct (submit_name ui && _); reflexivity].
  rewrite greeting_section_eq.
  destruct (greeting_done (session w));
    [|destruct (run_greeting svc _); reflexivity].
  rewrite !role_section_eq. cbv zeta. unfold start_accepted in Hstart.
  change (edit_role (without_start ui)) with (edit_role ui).
  rewrite Hstart. cbn [without_start start_interview andb].
  rewrite !interview_section_eq. cbv zeta.
  change (audio_recorder (without_start ui)) with (audio_recorder ui).
  rewrite !navigation_eq.
  reflexivity.
Qed.

Lemma rejected_start_is_no_click_witness :
  main (click_start " " "REST APIs") groq_up all_answered
  = main (without_start (click_start " " "REST APIs")) groq_up all_answered.
Proof.
  apply (rejected_start_is_no_click (click_start " " "REST APIs") groq_up all_answered).
  vm_compute. reflexivity.
Defined.

(** ** Progress through the questions *)

Lemma mem_set_mono {V : Type} k q (v : V) d :
  PyDict.mem k d = true -> PyDict.mem k (PyDict.set q v d) = true.
Proof.
  intros H. destruct (String.eqb_spec q k) as [->|Hne].
  - apply PyDictFacts.mem_set_eq.
  - unfold PyDict.mem in *. rewrite (PyDictFacts.get_set_ne q k v d Hne). exact H.
Qed.

Lemma get_In {V : Type} k (r : V) d : PyDict.get k d = Some r -> In (k, r) d.
Proof.
  induction d as [|[k' v'] d IH]; cbn; [discriminate|].
  destruct (String.eqb k k') eqn:E.
  - apply String.eqb_eq in E. subst k'. intros [= ->]. left. reflexivity.
  - intros H. right. apply IH, H.
Qed.







Lemma interact_cons i trace w :
  interact (i :: trace) w = interact trace (run (fst i) (snd i) w).
Proof. reflexivity. Qed.






(** ** The order of the responses *)










(** ** Responses and their recordings *)







(** ** The header of the results file *)







(** ** The lines of the questions *)

Lemma list_ascii_of_string_app a b :
  list_ascii_of_string (a +:+ b) = list_ascii_of_string a ++ list_ascii_of_string b.
Proof. induction a as [|c a IH]; simpl; [reflexivity | f_equal; exact IH]. Qed.

Lemma splitlines_chars_line l : forall cur rest,
  Forall (fun c => PyStr.is_linebreak c = false) l ->
  PyStr.splitlines_chars cur (l ++ rest) = PyStr.splitlines_chars (rev l ++ cur) rest.
Proof.
  induction l as [|c l IH]; intros cur rest Hl; [reflexivity|].
  apply Forall_cons in Hl as [Hc Hl]. cbn [app PyStr.splitlines_chars].
  rewrite Hc, (IH _ _ Hl). cbn [rev]. rewrite <- app_assoc. reflexivity.
Qed.

Lemma splitlines_chars_newline cur rest :
  PyStr.splitlines_chars cur ("010"%char :: rest)
  = rev cur :: PyStr.splitlines_chars [] rest.
Proof. destruct rest; reflexivity. Qed.

(** Lines written one per line are read back as they are. *)
Lemma splitlines_join lines :
  Forall (fun line => line <> ""
                      /\ Forall (fun c => PyStr.is_linebreak c = false)
                                (list_ascii_of_string line)) lines ->
  PyStr.splitlines (PyStr.join (String "010" "") lines) = lines.
Proof.
  unfold PyStr.splitlines.
  induction lines as [|x lines IH]; intros Hl; [reflexivity|].
  apply Forall_cons in Hl as [[Hx Hbreak] Hl].
  assert (Hlast : PyStr.splitlines_chars (rev (list_ascii_of_string x) ++ []) []
                  = [list_ascii_of_string x]).
  { rewrite app_nil_r. destruct x as [|c x]; [congruence|]. cbn [PyStr.splitlines_chars].
    destruct (rev (list_ascii_of_string (String c x))) eqn:E.
    - apply (f_equal (@length _)) in E. rewrite length_rev in E. discriminate.
    - rewrite <- E, rev_involutive. reflexivity. }
  destruct lines as [|y lines].
  - cbn [PyStr.join]. rewrite <- (app_nil_r (list_ascii_of_string x)).
    rewrite (splitlines_chars_line _ _ _ Hbreak), Hlast. cbn.
    rewrite string_of_list_ascii_of_string. reflexivity.
  - change (PyStr.join (String "010" "") (x :: y :: lines))
      with (x +:+ String "010" "" +:+ PyStr.join (String "010" "") (y :: lines)).
    rewrite !list_ascii_of_string_app.
    rewrite (splitlines_chars_line _ _ _ Hbreak). cbn [list_ascii_of_string app].
    rewrite splitlines_chars_newline, app_nil_r, rev_involutive.
    cbn [map]. rewrite string_of_list_ascii_of_string. f_equal. apply IH, Hl.
Qed.

(** X16: the questions the script keeps, written one per line, are read back
    as the same questions. *)
Theorem question_lines_read_back out :
  question_lines (PyStr.join (String "010" "") (question_lines out))
  = question_lines out.
Proof.
  pose proof (question_lines_stripped out) as Hq.
  unfold question_lines at 1. rewrite splitlines_join.
  2:{ eapply List.Forall_impl; [|exact Hq]. cbn. intros q (H1 & _ & H3). auto. }
  induction Hq as [|q qs (Hne & Hstrip & _) _ IH]; [reflexivity|].
  cbn [List.filter]. rewrite Hstrip.
  apply PyStrFacts.truthy_true in Hne. rewrite Hne. cbn [map].
  rewrite Hstrip. f_equal. exact IH.
Qed.

(** ** One recording *)

(** X17: a recording that is written and transcribed changes the response of
    the question under the cursor only: the questions, the cursor and the
    phase stay, the responses of the questions with another text stay, and
    the text is a new last key of [responses] or keeps its place.  A
    recording that cannot be written changes no response at all. *)
Theorem recording_touches_one_question w svc q b bs t :
  phase_of (session w) = Interviewing ->
  questions (session w) !! current_question (session w) = Some q ->
  transcriptions_create svc (b :: bs) = Returns t ->
  let writes :=
    match write_error w (current_question (session w)) with
    | None => true
    | Some _ => false
    end in
  let s := session w in
  let s' := session (run (record_answer (b :: bs)) svc w) in
  questions s' = questions s
  /\ current_question s' = current_question s
  /\ phase_of s' = Interviewing
  /\ PyDict.keys (responses s')
     = (if negb writes || PyDict.mem q (responses s) then PyDict.keys (responses s)
        else PyDict.keys (responses s) ++ [q])
  /\ answer_at s' (current_question s)
     = (if writes
        then Some {| audio := audio_path_of (candidate_name s) (current_question s);
                     text := PyStr.strip t |}
        else answer_at s (current_question s))
  /\ (forall idx q', questions s !! idx = Some q' -> q' <> q ->
        answer_at s' idx = answer_at s idx).
Proof.
  intros Hp Hq Ht writes s s'. subst writes s s'. unfold run.
  destruct (write_error w (current_question (session w))) as [e|] eqn:Hw.
  2:{ rewrite (record_run w svc q b bs Hp Hq Hw). cbv zeta. rewrite Ht.
    cbn [snd session questions current_question responses set_responses negb orb].
    split; [reflexivity|]. split; [reflexivity|]. split; [exact Hp|].
    split; [apply PyDictFacts.keys_set|]. split.
    + unfold answer_at. cbn [questions responses set_responses]. rewrite Hq. cbn.
      apply PyDictFacts.get_set_eq.
    + intros idx q' Hq' Hne. unfold answer_at.
      cbn [questions responses set_responses]. rewrite Hq'. cbn.
      apply PyDictFacts.get_set_ne. congruence. }
  rewrite (unwritable_record_run w svc q b bs e Hp Hq Hw).
  cbn [snd session negb orb]. repeat split. exact Hp.
Qed.

Lemma recording_touches_one_question_witness :
  answer_at (session (run (record_answer [x46]) groq_up all_answered)) 0
  = answer_at (session all_answered) 0
  /\ PyDict.keys (responses (session (run (record_answer [x46]) groq_up
                                         slash_name_visit))) = [].
Proof.
  destruct (recording_touches_one_question all_answered groq_up
              "2. What is an index?" x46 [] " I would add an index. ")
    as (_ & _ & _ & _ & _ & H);
    [vm_compute; reflexivity | vm_compute; reflexivity | reflexivity |].
  destruct (recording_touches_one_question slash_name_visit groq_up
              "1. What is REST?" x46 [] " I would add an index. ")
    as (_ & _ & _ & Hkeys & _);
    [vm_compute; reflexivity | vm_compute; reflexivity | reflexivity |].
  split; [apply (H 0 "1. What is REST?"); [vm_compute; reflexivity | discriminate]|].
  vm_compute in Hkeys |- *. exact Hkeys.
Defined.

(** ** A question chain that fails *)

(** X18: when the question chain raises on "Start Interview", the run ends
    in that exception with the role form stored and the interview as it was:
    the questions, the responses, the cursor and the phase stay. *)
Theorem failed_start_keeps_interview w svc title desc e :
  PyStr.truthy (candidate_name (session w)) = true ->
  greeting_done (session w) = true ->
  PyStr.strip title <> "" ->
  PyStr.strip desc <> "" ->
  run_question svc title desc = Raises e ->
  main (click_start title desc) svc w
  = (Stop (Uncaught e),
     with_session (set_description desc (set_role title (session w))) w)
  /\ (let s' := session (run (click_start title desc) svc w) in
      questions s' = questions (session w)
      /\ responses s' = responses (session w)
      /\ current_question s' = current_question (session w)
      /\ phase_of s' = phase_of (session w)).
Proof.
  intros Hn Hg Ht Hd He. apply PyStrFacts.truthy_true in Ht, Hd.
  unfold run. rewrite (start_run w svc title desc Hn Hg). cbv zeta.
  rewrite Ht, Hd, He. cbn. repeat split.
Qed.

Lemma failed_start_keeps_interview_witness :
  main (click_start "Data Engineer" "Spark") groq_down all_answered
  = (Stop (Uncaught (ServiceError "503")),
     with_session
       (set_description "Spark" (set_role "Data Engineer" (session all_answered)))
       all_answered).
Proof.
  destruct (failed_start_keeps_interview all_answered groq_down "Data Engineer"
              "Spark" (ServiceError "503")) as [H _];
    [vm_compute; reflexivity | vm_compute; reflexivity | vm_compute; discriminate
    | vm_compute; discriminate | reflexivity | exact H].
Defined.

(** ** Runs without a service *)

(** X19: outside the greeting and the evaluation, a run that neither starts
    an interview nor hands over a recording does not depend on the services:
    navigation calls none. *)
Theorem quiet_run_calls_no_service ui svc1 svc2 w :
  phase_of (session w) <> AwaitingGreeting ->
  phase_of (session w) <> Completed ->
  start_accepted ui (session w) = false ->
  recorded ui = false ->
  main ui svc1 w = main ui svc2 w.
Proof.
  intros Hg Hc Hstart Hrec. rewrite !main_by_phase.
  destruct (phase_of (session w)); try congruence; try reflexivity.
  - rewrite !role_section_eq. cbv zeta. unfold start_accepted in Hstart.
    rewrite Hstart. reflexivity.
  - cbv [mbind script_bind]. rewrite !role_section_eq. cbv zeta.
    unfold start_accepted in Hstart. rewrite Hstart.
    rewrite !interview_section_eq. cbv zeta. unfold recorded in Hrec.
    destruct (audio_recorder ui) as [[|b bs]|]; [reflexivity | discriminate
                                                | reflexivity].
Qed.

Lemma quiet_run_calls_no_service_witness :
  main click_previous groq_up all_answered = main click_previous groq_down all_answered.
Proof.
  apply (quiet_run_calls_no_service click_previous groq_up groq_down all_answered);
    [vm_compute; discriminate | vm_compute; discriminate | vm_compute; reflexivity
    | reflexivity].
Defined.

(** ** A whole interview *)

Lemma next_run w svc q :
  phase_of (session w) = Interviewing ->
  questions (session w) !! current_question (session w) = Some q ->
  PyDict.mem q (responses (session w)) = true ->
  current_question (session w) + 1 < length (questions (session w)) ->
  run click_next svc w
  = with_session (set_current_question (current_question (session w) + 1) (session w)) w.
Proof.
  intros Hp Hq Hmem Hlt. unfold run.
  rewrite (navigation_run click_next svc w q Hp Hq); try reflexivity.
  rewrite Hmem, navigation_eq. cbv zeta.
  cbn [click_next previous_question next_question finish_interview].
  rewrite andb_false_r, andb_true_r.
  destruct (Nat.ltb_spec (current_question (session w))
              (length (questions (session w)) - 1)); [reflexivity | lia].
Qed.

Lemma finish_run w svc q :
  phase_of (session w) = Interviewing ->
  questions (session w) !! current_question (session w) = Some q ->
  PyDict.mem q (responses (session w)) = true ->
  current_question (session w) + 1 = length (questions (session w)) ->
  run click_finish svc w = with_session (set_interview_complete true (session w)) w.
Proof.
  intros Hp Hq Hmem Hlast. unfold run.
  rewrite (navigation_run click_finish svc w q Hp Hq); try reflexivity.
  rewrite Hmem, navigation_eq. cbv zeta.
  cbn [click_finish previous_question next_question finish_interview].
  rewrite !andb_false_r, andb_true_r.
  destruct (Nat.eqb_spec (current_question (session w))
              (length (questions (session w)) - 1)); [reflexivity | lia].
Qed.

Lemma answer_in_turn_run n : forall w svc b bs,
  phase_of (session w) = Interviewing ->
  current_question (session w) + S n = length (questions (session w)) ->
  (forall idx, idx < length (questions (session w)) -> write_error w idx = None) ->
  (forall content, exists t, transcriptions_create svc content = Returns t) ->
  let w' := interact (answer_in_turn n (b :: bs) svc) w in
  phase_of (session w') = Completed
  /\ questions (session w') = questions (session w)
  /\ candidate_name (session w') = candidate_name (session w)
  /\ results_file w' = results_file w
  /\ (forall k, PyDict.mem k (responses (session w)) = true ->
                PyDict.mem k (responses (session w')) = true)
  /\ (forall p content,
        files w !! p = Some content ->
        (forall idx, current_question (session w) <= idx ->
                     p <> audio_path_of (candidate_name (session w)) idx) ->
        files w' !! p = Some content)
  /\ (forall idx q,
        current_question (session w) <= idx ->
        questions (session w) !! idx = Some q ->
        PyDict.mem q (responses (session w')) = true
        /\ files w' !! audio_path_of (candidate_name (session w)) idx
           = Some (b :: bs)).
Proof.
  induction n as [|n IH]; intros w svc b bs Hp Hlen Hdir Hsvc w'.
  - subst w'. cbn [answer_in_turn].
    destruct (lookup_lt_is_Some_2 (questions (session w)) (current_question (session w)))
      as [q Hq]; [lia|].
    destruct (Hsvc (b :: bs)) as [t Ht].
    rewrite !interact_cons. cbn [fst snd interact fold_left].
    set (w1 := run (record_answer (b :: bs)) svc w).
    assert (E1 : w1 =
              {| session :=
                   set_responses
                     (PyDict.set q
                        {| audio := audio_path_of (candidate_name (session w))
                                      (current_question (session w));
                           text := PyStr.strip t |}
                        (responses (session w))) (session w);
                 files := <[audio_path_of (candidate_name (session w))
                              (current_question (session w)) := b :: bs]> (files w);
                 open_wb := open_wb w;
                 results_file := results_file w |}).
    { unfold w1, run. rewrite (record_run w svc q b bs Hp Hq); [|apply Hdir; lia].
      cbv zeta. rewrite Ht. reflexivity. }
    rewrite (finish_run w1 svc q); rewrite E1; cbn [session questions
      current_question responses set_responses];
      [|exact Hp|exact Hq|apply PyDictFacts.mem_set_eq|lia].
    cbn [session with_session files open_wb results_file questions candidate_name
         responses set_interview_complete set_responses].
    apply phase_interviewing in Hp as (Hn & Hg & _ & _).
    split; [unfold phase_of; cbn; rewrite Hn, Hg; reflexivity|].
    split; [reflexivity|]. split; [reflexivity|]. split; [reflexivity|].
    split; [intros k Hk; apply mem_set_mono, Hk|].
    split.
    + intros p content Hfile Hp'. rewrite lookup_insert_ne; [exact Hfile|].
      intros H. apply (Hp' (current_question (session w))); [lia | congruence].
    + intros idx q' Hidx Hq'.
      pose proof (lookup_lt_Some _ _ _ Hq') as Hlt.
      assert (idx = current_question (session w)) as -> by lia.
      assert (q' = q) as -> by congruence.
      split; [apply PyDictFacts.mem_set_eq | apply lookup_insert_eq].
  - subst w'. cbn [answer_in_turn].
    destruct (lookup_lt_is_Some_2 (questions (session w)) (current_question (session w)))
      as [q Hq]; [lia|].
    destruct (Hsvc (b :: bs)) as [t Ht].
    rewrite !interact_cons. cbn [fst snd].
    set (w1 := run (record_answer (b :: bs)) svc w).
    assert (E1 : w1 =
              {| session :=
                   set_responses
                     (PyDict.set q
                        {| audio := audio_path_of (candidate_name (session w))
                                      (current_question (session w));
                           text := PyStr.strip t |}
                        (responses (session w))) (session w);
                 files := <[audio_path_of (candidate_name (session w))
                              (current_question (session w)) := b :: bs]> (files w);
                 open_wb := open_wb w;
                 results_file := results_file w |}).
    { unfold w1, run. rewrite (record_run w svc q b bs Hp Hq); [|apply Hdir; lia].
      cbv zeta. rewrite Ht. reflexivity. }
    set (w2 := run click_next svc w1).
    assert (E2 : w2 =
              with_session
                (set_current_question (current_question (session w) + 1) (session w1))
                w1).
    { unfold w2. rewrite (next_run w1 svc q); rewrite E1; cbn [session questions
        current_question responses set_responses];
        [reflexivity|exact Hp|exact Hq|apply PyDictFacts.mem_set_eq|lia]. }
    destruct (IH w2 svc b bs) as (H1 & H2 & H3 & H4 & H5 & H6 & H7).
    { rewrite E2, E1. exact Hp. }
    { rewrite E2, E1. cbn. lia. }
    { intros idx Hidx. rewrite E2, E1 in Hidx |- *. apply Hdir, Hidx. }
    { exact Hsvc. }
    assert (Ename : candidate_name (session w2) = candidate_name (session w))
      by (rewrite E2, E1; reflexivity).
    assert (Equestions : questions (session w2) = questions (session w))
      by (rewrite E2, E1; reflexivity).
    assert (Ecur : current_question (session w2) = current_question (session w) + 1)
      by (rewrite E2, E1; reflexivity).
    assert (Eresp : responses (session w2)
                    = PyDict.set q
                        {| audio := audio_path_of (candidate_name (session w))
                                      (current_question (session w));
                           text := PyStr.strip t |} (responses (session w)))
      by (rewrite E2, E1; reflexivity).
    assert (Efiles : files w2
                     = <[audio_path_of (candidate_name (session w))
                           (current_question (session w)) := b :: bs]> (files w))
      by (rewrite E2, E1; reflexivity).
    assert (Eres : results_file w2 = results_file w)
      by (rewrite E2, E1; reflexivity).
    rewrite Ename, Equestions, Ecur, Eresp in *.
    split; [exact H1|]. split; [exact H2|]. split; [exact H3|].
    split; [congruence|].
    split; [intros k Hk; apply H5, mem_set_mono, Hk|].
    split.
    + intros p content Hfile Hp'. apply H6.
      * rewrite Efiles, lookup_insert_ne; [exact Hfile|].
        intros H. apply (Hp' (current_question (session w))); [lia | congruence].
      * intros idx Hidx. apply Hp'. lia.
    + intros idx q' Hidx Hq'.
      destruct (Nat.eq_dec idx (current_question (session w))) as [->|Hne].
      * assert (q' = q) as -> by congruence. split.
        -- apply H5, PyDictFacts.mem_set_eq.
        -- apply H6; [rewrite Efiles; apply lookup_insert_eq|].
           intros idx Hidx' H. apply audio_path_of_inj in H. lia.
      * apply H7; [lia | exact Hq'].
Qed.

Lemma interact_app trace1 trace2 w :
  interact (trace1 ++ trace2) w = interact trace2 (interact trace1 w).
Proof. unfold interact. apply fold_left_app. Qed.

Lemma interview_section_keeps_role ui svc w :
  role (session (snd (interview_section ui svc w))) = role (session w).
Proof.
  rewrite interview_section_eq. cbv zeta.
  repeat (script_case; try reflexivity);
    rewrite navigation_eq; cbv zeta; repeat script_case; reflexivity.
Qed.

(** A run with the role form untouched keeps the role. *)
Lemma untouched_form_keeps_role ui svc w :
  job_title ui = None -> start_interview ui = false ->
  role (session (run ui svc w)) = role (session w).
Proof.
  intros Ht Hs. unfold run. rewrite main_eq.
  unfold before_evaluation. cbv [mbind script_bind].
  rewrite name_section_eq.
  destruct (PyStr.truthy _); [|repeat script_case; reflexivity].
  rewrite greeting_section_eq.
  destruct (greeting_done _); [|repeat script_case; reflexivity].
  rewrite role_section_eq. cbv zeta. rewrite Hs. cbn [andb].
  assert (Hr : role (edit_role ui (session w)) = role (session w)).
  { unfold edit_role. rewrite Ht. reflexivity. }
  pose proof (interview_section_keeps_role ui svc
                (with_session (edit_role ui (session w)) w)) as Hint.
  destruct (interview_section ui svc _) as [[[]|c] w1]; cbn [snd] in *.
  - rewrite evaluation_section_keeps_session, Hint. exact Hr.
  - rewrite Hint. exact Hr.
Qed.

Lemma answer_in_turn_keeps_role n : forall w svc b bs,
  role (session (interact (answer_in_turn n (b :: bs) svc) w)) = role (session w).
Proof.
  induction n as [|n IH]; intros w svc b bs; cbn [answer_in_turn];
    rewrite !interact_cons; cbn [fst snd].
  - cbn [interact fold_left]. rewrite !untouched_form_keeps_role by reflexivity.
    reflexivity.
  - rewrite IH, !untouched_form_keeps_role by reflexivity. reflexivity.
Qed.

(** X20: from the first question, recording an answer to each question in
    turn, pressing "Next Question" in between and "Finish Interview" at the
    end, completes the interview whatever its length, when the recording of
    every question can be written and the services answer; the run that
    follows saves one record for every question, with the candidate, the
    role and the evaluation, and every recording is on disk. *)
Theorem whole_interview_is_saved w svc b bs eval_result :
  phase_of (session w) = Interviewing ->
  current_question (session w) = 0 ->
  (forall idx, idx < length (questions (session w)) -> write_error w idx = None) ->
  (forall content, exists t, transcriptions_create svc content = Returns t) ->
  (forall role qa_text, run_evaluation svc role qa_text = Returns eval_result) ->
  let n := length (questions (session w)) - 1 in
  let w' := interact (answer_in_turn n (b :: bs) svc ++ [(idle, svc)]) w in
  let rows := rows_of (session w', eval_result) in
  phase_of (session w') = Completed
  /\ questions (session w') = questions (session w)
  /\ results_file w'
     = Some match results_file w with
            | None => csv_header :: rows
            | Some old => old ++ rows
            end
  /\ (forall idx q,
        questions (session w) !! idx = Some q ->
        files w' !! audio_path_of (candidate_name (session w)) idx = Some (b :: bs)
        /\ exists r,
             answer_at (session w') idx = Some r
             /\ In [candidate_name (session w); role (session w); q; audio r;
                    text r; eval_result] rows).
Proof.
  intros Hp Hcur Hdir Hsvc Heval n w' rows.
  pose proof (phase_interviewing _ Hp) as (_ & _ & _ & Hne).
  assert (Hlen : current_question (session w) + S n = length (questions (session w))).
  { unfold n. rewrite Hcur. destruct (questions (session w)); [congruence|].
    cbn. lia. }
  destruct (answer_in_turn_run n w svc b bs Hp Hlen Hdir Hsvc)
    as (H1 & H2 & H3 & H4 & _ & _ & H7).
  set (w1 := interact (answer_in_turn n (b :: bs) svc) w) in *.
  assert (Hw' : w' = run idle svc w1).
  { unfold w'. rewrite interact_app. reflexivity. }
  assert (Hrun : main idle svc w1 = evaluation_section svc w1).
  { rewrite (completed_run idle svc w1 H1 eq_refl).
    rewrite edit_role_untouched by reflexivity. rewrite with_session_same.
    reflexivity. }
  assert (Hsession : session w' = session w1).
  { rewrite Hw'. unfold run. rewrite Hrun. apply evaluation_section_keeps_session. }
  assert (Hfiles : files w' = files w1).
  { rewrite Hw'. unfold run. rewrite Hrun, evaluation_section_eq. cbv zeta.
    repeat script_case; reflexivity. }
  assert (Hrole : role (session w1) = role (session w))
    by apply answer_in_turn_keeps_role.
  split; [rewrite Hsession; exact H1|].
  split; [rewrite Hsession; exact H2|]. split.
  - rewrite Hw', run_results_file.
    rewrite (saved_by_idle svc w1 eval_result H1 (Heval _ _)).
    cbn [append_saves]. rewrite H4. unfold rows. rewrite Hsession. reflexivity.
  - intros idx q Hq. destruct (H7 idx q) as [Hmem Hfile]; [lia | exact Hq |].
    split; [rewrite Hfiles; exact Hfile|].
    unfold PyDict.mem in Hmem.
    destruct (PyDict.get q (responses (session w1))) as [r|] eqn:Hget;
      [|discriminate].
    exists r. split.
    + rewrite Hsession. unfold answer_at. rewrite H2, Hq. exact Hget.
    + unfold rows, rows_of, PyDict.items. cbn [fst snd]. rewrite Hsession.
      apply List.in_map_iff. exists (q, r). split; [|apply get_In, Hget].
      unfold csv_row. cbn [fst snd]. rewrite H3, Hrole. reflexivity.
Qed.

Lemma whole_interview_is_saved_witness :
  phase_of
    (session (interact (answer_in_turn 1 [x52] groq_up ++ [(idle, groq_up)])
                       at_first_question))
  = Completed.
Proof.
  destruct (whole_interview_is_saved at_first_question groq_up x52 []
              "Final Score: 8/10") as (H & _).
  - vm_compute. reflexivity.
  - vm_compute. reflexivity.
  - intros [|[|idx]] Hidx; [vm_compute; reflexivity | vm_compute; reflexivity|].
    exfalso. vm_compute in Hidx. lia.
  - intros content. eexists. reflexivity.
  - intros role qa_text. reflexivity.
  - vm_compute in H |- *. exact H.
Defined.

(** ** Runs that start no interview *)

Lemma navigation_is_local ui idx w :
  let s' := session (snd (navigation ui idx w)) in
  questions s' = questions (session w)
  /\ responses s' = responses (session w)
  /\ current_question s' - 1 <= current_question (session w)
  /\ current_question (session w) <= current_question s' + 1.
Proof.
  rewrite navigation_eq. cbv zeta.
  repeat script_case; cbn [snd session with_session questions responses
    current_question set_current_question set_interview_complete];
    repeat split; lia.
Qed.

Lemma interview_section_is_local ui svc w :
  let s' := session (snd (interview_section ui svc w)) in
  questions s' = questions (session w)
  /\ (forall k, PyDict.mem k (responses (session w)) = true ->
                PyDict.mem k (responses s') = true)
  /\ (recorded ui = false -> responses s' = responses (session w))
  /\ current_question s' - 1 <= current_question (session w)
  /\ current_question (session w) <= current_question s' + 1.
Proof.
  assert (Hsame : forall w1 : world,
            session w1 = session w ->
            questions (session w1) = questions (session w)
            /\ (forall k, PyDict.mem k (responses (session w)) = true ->
                          PyDict.mem k (responses (session w1)) = true)
            /\ (recorded ui = false -> responses (session w1) = responses (session w))
            /\ current_question (session w1) - 1 <= current_question (session w)
            /\ current_question (session w) <= current_question (session w1) + 1).
  { intros w1 ->. repeat split; solve [auto | lia]. }
  assert (Hnav : forall idx,
            let s' := session (snd (navigation ui idx w)) in
            questions s' = questions (session w)
            /\ (forall k, PyDict.mem k (responses (session w)) = true ->
                          PyDict.mem k (responses s') = true)
            /\ (recorded ui = false -> responses s' = responses (session w))
            /\ current_question s' - 1 <= current_question (session w)
            /\ current_question (session w) <= current_question s' + 1).
  { intros idx. destruct (navigation_is_local ui idx w) as (Hq & Hr & H1 & H2).
    cbv zeta. rewrite Hq, Hr. repeat split; solve [auto | lia]. }
  rewrite interview_section_eq. cbv zeta.
  destruct (questions (session w)) as [|q0 qs] eqn:Hqs; [apply Hsame; reflexivity|].
  destruct (interview_complete (session w)); [apply Hsame; reflexivity|].
  destruct (_ !! current_question (session w)) as [q|]; [|apply Hsame; reflexivity].
  unfold recorded in *.
  destruct (audio_recorder ui) as [[|b bs]|].
  - destruct (PyDict.mem q _); [apply Hnav | apply Hsame; reflexivity].
  - destruct (write_error w (current_question (session w)));
      [apply Hsame; reflexivity|].
    destruct (transcriptions_create svc (b :: bs));
      [|apply Hsame; reflexivity].
    match goal with
    | |- context [navigation ui ?i ?w1] =>
        destruct (navigation_is_local ui i w1) as (Hq & Hr & H1 & H2)
    end.
    rewrite Hq, Hr.
    cbn [session with_session questions responses current_question
         set_responses] in *.
    split; [exact Hqs|]. split; [intros k Hk; apply mem_set_mono, Hk|].
    split; [discriminate|]. split; assumption.
  - destruct (PyDict.mem q _); [apply Hnav | apply Hsame; reflexivity].
Qed.

(** X21: a run that starts no interview keeps the questions, loses no
    response, keeps the responses as they are when there is no recording, and
    moves the cursor by one step at most. *)
Theorem run_without_start_is_local ui svc w :
  start_accepted ui (session w) = false ->
  let s' := session (run ui svc w) in
  questions s' = questions (session w)
  /\ (forall k, PyDict.mem k (responses (session w)) = true ->
                PyDict.mem k (responses s') = true)
  /\ (recorded ui = false -> responses s' = responses (session w))
  /\ current_question s' - 1 <= current_question (session w)
  /\ current_question (session w) <= current_question s' + 1.
Proof.
  intros Hstart. cbv zeta. unfold run. rewrite main_eq.
  unfold before_evaluation. cbv [mbind script_bind].
  rewrite name_section_eq.
  assert (Hsame : forall s' : session_state,
            questions s' = questions (session w) ->
            responses s' = responses (session w) ->
            current_question s' = current_question (session w) ->
            questions s' = questions (session w)
            /\ (forall k, PyDict.mem k (responses (session w)) = true ->
                          PyDict.mem k (responses s') = true)
            /\ (recorded ui = false -> responses s' = responses (session w))
            /\ current_question s' - 1 <= current_question (session w)
            /\ current_question (session w) <= current_question s' + 1).
  { intros s' Hq Hr Hc. rewrite Hq, Hr, Hc. repeat split; solve [auto | lia]. }
  destruct (PyStr.truthy _);
    [|repeat script_case; apply Hsame; reflexivity].
  rewrite greeting_section_eq.
  destruct (greeting_done _);
    [|repeat script_case; apply Hsame; reflexivity].
  rewrite role_section_eq. cbv zeta. unfold start_accepted in Hstart.
  rewrite Hstart.
  pose proof (interview_section_is_local ui svc
                (with_session (edit_role ui (session w)) w)) as Hint.
  cbv zeta in Hint. cbn [session with_session] in Hint.
  destruct (interview_section ui svc _) as [[[]|c] w1]; cbn [snd] in *;
    [rewrite evaluation_section_keeps_session|]; exact Hint.
Qed.

Lemma run_without_start_is_local_witness :
  questions (session (run click_finish groq_up all_answered))
  = questions (session all_answered).
Proof.
  destruct (run_without_start_is_local click_finish groq_up all_answered)
    as (H & _); [vm_compute; reflexivity | exact H].
Defined.

(** ** The session, whatever the visit *)

